(** * ingress2gateway: the [print] command (cmd/print.go)

    A shallow embedding of [PrintRunner] and its methods.  The runner is a
    mutable Go struct reached through a pointer receiver, and its methods
    talk to the outside world (kubeconfig, a manifest file, a cluster, the
    converter of package i2gw, a resource printer and standard output).
    The embedding threads one [State] (the runner, the log of external
    calls, the bytes written to standard output) through a small monad
    that also reads a [World]: what each external call answers during the
    invocation. *)

From Stdlib Require Import String Ascii List ZArith Bool Lia DecimalString.
Import ListNotations.
Local Open Scope string_scope.

(** ** Go values: errors and fmt *)

Module Go.

(** An [error] as package [errors] and [fmt] build it: [errors.New] gives an
    [errorString], [fmt.Errorf] with one [%w] operand a [wrapError]. *)
Inductive error : Type :=
| errorString (s : string)
| wrapError (msg : string) (err : error).

(** The method [Error() string]. *)
Definition Error (e : error) : string :=
  match e with
  | errorString s => s
  | wrapError msg _ => msg
  end.

(** The method [Unwrap() error]; [None] is Go's nil. *)
Definition Unwrap (e : error) : option error :=
  match e with
  | errorString _ => None
  | wrapError _ err => Some err
  end.

(** The line feed the source writes as a backslash followed by n. *)
Definition LF : string := String "010" EmptyString.

(** Operands of the formatting calls of print.go. *)
Inductive Arg : Type :=
| AString (s : string)
| AInt (n : Z)
| AError (e : error).

(** Base-10 rendering of an [int], as the verb [%d] prints it. *)
Definition Itoa (n : Z) : string := NilZero.string_of_int (Z.to_int n).

(** The text of an operand under its verb.  print.go applies [%s] and [%v]
    to strings and errors, [%d] to an int and [%w] to an error; for these
    pairs this is what package fmt prints. *)
Definition formatArg (a : Arg) : string :=
  match a with
  | AString s => s
  | AInt n => Itoa n
  | AError e => Error e
  end.

Definition isVerb (c : ascii) : bool :=
  (c =? "s")%char || (c =? "v")%char || (c =? "d")%char || (c =? "w")%char.

(** [fmt.Sprintf] on the fragment print.go uses: the verbs s, v, d and w,
    each consuming the next operand; a verb without operand prints
    [%!verb(MISSING)] and a trailing percent sign [%!(NOVERB)], as in Go.
    No call of print.go passes more operands than verbs. *)
Fixpoint Sprintf (format : string) (a : list Arg) : string :=
  match format with
  | EmptyString => EmptyString
  | String c rest =>
      if (c =? "%")%char then
        match rest with
        | EmptyString => "%!(NOVERB)"
        | String v rest' =>
            if isVerb v then
              match a with
              | x :: a' => formatArg x ++ Sprintf rest' a'
              | [] => "%!" ++ String v "(MISSING)" ++ Sprintf rest' []
              end
            else if (v =? "%")%char then String "%" (Sprintf rest' a)
            else String c (String v (Sprintf rest' a))
        end
      else String c (Sprintf rest a)
  end.

(** The operand of the first [%w] verb, when it is an error. *)
Fixpoint wrappedErr (format : string) (a : list Arg) : option error :=
  match format with
  | EmptyString => None
  | String c rest =>
      if (c =? "%")%char then
        match rest with
        | EmptyString => None
        | String v rest' =>
            if isVerb v then
              match a with
              | x :: a' =>
                  if (v =? "w")%char then
                    match x with
                    | AError e => Some e
                    | _ => wrappedErr rest' a'
                    end
                  else wrappedErr rest' a'
              | [] => None
              end
            else wrappedErr rest' a
        end
      else wrappedErr rest a
  end.

(** [fmt.Errorf]: the message is [Sprintf format a]; with a [%w] operand
    the result wraps it. *)
Definition Errorf (format : string) (a : list Arg) : error :=
  match wrappedErr format a with
  | Some err => wrapError (Sprintf format a) err
  | None => errorString (Sprintf format a)
  end.

(** [strings.Contains s substr], as a proposition. *)
Definition Contains (s substr : string) : Prop :=
  exists pre post : string, s = pre ++ substr ++ post.

End Go.
Import Go.

(** ** The print command *)

(** The Kubernetes API types are declared outside cmd/print.go, which reads
    of them only [Items] and [Name]; the spec of each kind, the REST
    configuration and the cluster client stay abstract. *)
Class APITypes : Type := {
  IngressSpec : Type;
  GatewaySpec : Type;
  HTTPRouteSpec : Type;
  Config : Type;
  Client : Type
}.

Section PrintCommand.

Context `{API : APITypes}.

(** metav1.ObjectMeta, the two fields that scope and name a record. *)
Record ObjectMeta : Type := {
  Name : string;
  Namespace : string
}.

(** networkingv1.Ingress *)
Record Ingress : Type := {
  ingressMeta : ObjectMeta;
  ingressSpec : IngressSpec
}.

(** networkingv1.IngressList *)
Record IngressList : Type := {
  Items : list Ingress
}.

(** gatewayv1beta1.Gateway *)
Record Gateway : Type := {
  gatewayMeta : ObjectMeta;
  gatewaySpec : GatewaySpec
}.

(** gatewayv1beta1.HTTPRoute *)
Record HTTPRoute : Type := {
  httpRouteMeta : ObjectMeta;
  httpRouteSpec : HTTPRouteSpec
}.

(** The runtime.Object values handed to a printer. *)
Inductive Object : Type :=
| GatewayObject (g : Gateway)
| HTTPRouteObject (r : HTTPRoute).

(** printers.ResourcePrinter, the two implementations print.go selects.
    A YAMLPrinter counts the objects it has printed. *)
Inductive ResourcePrinter : Type :=
| YAMLPrinter (printCount : Z)
| JSONPrinter.

(** type PrintRunner struct; a nil [resourcePrinter] is [None]. *)
Record PrintRunner : Type := {
  outputFormat : string;
  inputFile : string;
  namespace : string;
  allNamespaces : bool;
  resourcePrinter : option ResourcePrinter;
  namespaceFilter : string
}.

Definition set_resourcePrinter (p : option ResourcePrinter) (pr : PrintRunner) : PrintRunner :=
  {| outputFormat := outputFormat pr;
     inputFile := inputFile pr;
     namespace := namespace pr;
     allNamespaces := allNamespaces pr;
     resourcePrinter := p;
     namespaceFilter := namespaceFilter pr |}.

Definition set_namespaceFilter (f : string) (pr : PrintRunner) : PrintRunner :=
  {| outputFormat := outputFormat pr;
     inputFile := inputFile pr;
     namespace := namespace pr;
     allNamespaces := allNamespaces pr;
     resourcePrinter := resourcePrinter pr;
     namespaceFilter := f |}.

(** *** Collaborators *)

(** Code of other packages linked into the program, the same at every
    invocation. *)
Class Packages : Type := {
  (** i2gw.Ingresses2GatewaysAndHTTPRoutes(ingresses) *)
  Ingresses2GatewaysAndHTTPRoutes :
    list Ingress -> list HTTPRoute * list Gateway * list error;
  (** The method PrintObj(obj, os.Stdout) of a printer, as a function of
      the printer and the object: the printer after the call, the bytes it
      wrote and the error it returned. *)
  PrintObj : ResourcePrinter -> Object -> ResourcePrinter * string * option error;
  (** client.NewNamespacedClient(cl, ns) *)
  NewNamespacedClient : Client -> string -> Client
}.

Context `{Pkg : Packages}.

(** What the environment answers during one invocation.  Each of these
    calls is made at most once per invocation, so one answer each is
    enough. *)
Record World : Type := {
  (** kubeConfig.Namespace() on the default loading rules *)
  kubeConfigNamespace : string * bool * option error;
  (** i2gw.ConstructIngressesFromFile(l, inputFile, namespaceFilter): the
      list [l] after the call and the error *)
  ConstructIngressesFromFile : IngressList -> string -> string -> IngressList * option error;
  (** config.GetConfig() *)
  GetConfig : Config * option error;
  (** client.New(conf, client.Options{}) *)
  clientNew : Config -> Client * option error;
  (** i2gw.ConstructIngressesFromCluster(cl, l): the list [l] after the
      call and the error *)
  ConstructIngressesFromCluster : Client -> IngressList -> IngressList * option error
}.

(** The external calls an invocation makes, in the order it makes them. *)
Inductive Event : Type :=
| CallNamespace
| CallConstructIngressesFromFile (inputFile namespaceFilter : string)
| CallGetConfig
| CallClientNew (conf : Config)
| CallConstructIngressesFromCluster (cl : Client)
| CallIngresses2GatewaysAndHTTPRoutes (ingresses : list Ingress)
| CallPrintObj (obj : Object).

(** *** The monad *)

Record State : Type := {
  runner : PrintRunner;
  trace : list Event;
  stdout : string
}.

Definition with_runner (pr : PrintRunner) (s : State) : State :=
  {| runner := pr; trace := trace s; stdout := stdout s |}.

Definition with_event (e : Event) (s : State) : State :=
  {| runner := runner s; trace := (trace s ++ [e])%list; stdout := stdout s |}.

Definition with_output (bytes : string) (s : State) : State :=
  {| runner := runner s; trace := trace s; stdout := stdout s ++ bytes |}.

(** A call returns normally with a value, or panics (a method called on a
    nil interface). *)
Inductive Outcome (A : Type) : Type :=
| Normal (a : A) (s : State)
| Panic (s : State).
Arguments Normal {A} a s.
Arguments Panic {A} s.

Definition M (A : Type) : Type := World -> State -> Outcome A.

Definition ret {A : Type} (a : A) : M A := fun _ s => Normal a s.

Definition bind {A B : Type} (m : M A) (k : A -> M B) : M B :=
  fun w s =>
    match m w s with
    | Normal a s' => k a w s'
    | Panic s' => Panic s'
    end.

Notation "x <- m ;; k" := (bind m (fun x => k))
  (at level 61, m at next level, right associativity).
Notation "' p <- m ;; k" := (bind m (fun x => match x with p => k end))
  (at level 61, p pattern, m at next level, right associativity).
Notation "m ;; k" := (bind m (fun _ => k))
  (at level 61, right associativity).

Definition panic {A : Type} : M A := fun _ s => Panic s.

Definition ask : M World := fun w s => Normal w s.

Definition getRunner : M PrintRunner := fun _ s => Normal (runner s) s.

Definition modifyRunner (f : PrintRunner -> PrintRunner) : M unit :=
  fun _ s => Normal tt (with_runner (f (runner s)) s).

Definition record (e : Event) : M unit :=
  fun _ s => Normal tt (with_event e s).

(** Bytes appended to os.Stdout. *)
Definition write (bytes : string) : M unit :=
  fun _ s => Normal tt (with_output bytes s).

(** fmt.Printf *)
Definition Printf (format : string) (a : list Arg) : M unit :=
  write (Sprintf format a).

(** for _, x := range l { body x } *)
Fixpoint forRange {A : Type} (l : list A) (body : A -> M unit) : M unit :=
  match l with
  | [] => ret tt
  | x :: l' => body x ;; forRange l' body
  end.

Definition isNil {A : Type} (o : option A) : bool :=
  match o with
  | None => true
  | Some _ => false
  end.

(** The builtin [len]. *)
Definition len {A : Type} (l : list A) : Z := Z.of_nat (length l).

(** *** cmd/print.go *)

(** getNamespaceInCurrentContext returns the namespace in the current
    active context of the user. *)
Definition getNamespaceInCurrentContext : M (string * option error) :=
  w <- ask ;;
  record CallNamespace ;;
  let '(currentNamespace, _, err) := kubeConfigNamespace w in
  ret (currentNamespace, err).

(** initializeResourcePrinter assigns a printer according to the
    outputFormat of the runner. *)
Definition initializeResourcePrinter : M (option error) :=
  pr <- getRunner ;;
  if (outputFormat pr =? "yaml") || (outputFormat pr =? "") then
    modifyRunner (set_resourcePrinter (Some (YAMLPrinter 0))) ;;
    ret None
  else if outputFormat pr =? "json" then
    modifyRunner (set_resourcePrinter (Some JSONPrinter)) ;;
    ret None
  else
    ret (Some (Errorf "%s is not a supported output format" [AString (outputFormat pr)])).

(** initializeNamespaceFilter sets the namespace filter of the run. *)
Definition initializeNamespaceFilter : M (option error) :=
  pr <- getRunner ;;
  if allNamespaces pr then
    modifyRunner (set_namespaceFilter "") ;;
    ret None
  else if namespace pr =? "" then
    ' (ns, err) <- getNamespaceInCurrentContext ;;
    if negb (isNil err) && (inputFile pr =? "") then
      ret err
    else
      modifyRunner (set_namespaceFilter ns) ;;
      ret None
  else
    modifyRunner (set_namespaceFilter (namespace pr)) ;;
    ret None.

(** The acquisition half of getIngessList: the list read from the file or
    from the cluster, or the error of the early return. *)
Definition acquire (namespaceFilter inputFile : string) (ingressList : IngressList)
  : M (IngressList + error) :=
  w <- ask ;;
  if negb (inputFile =? "") then
    record (CallConstructIngressesFromFile inputFile namespaceFilter) ;;
    let '(ingressList, err) :=
      ConstructIngressesFromFile w ingressList inputFile namespaceFilter in
    match err with
    | Some err => ret (inr (Errorf "failed to open input file: %w" [AError err]))
    | None => ret (inl ingressList)
    end
  else
    record CallGetConfig ;;
    let '(conf, err) := GetConfig w in
    match err with
    | Some err => ret (inr (Errorf "failed to get client config: %w" [AError err]))
    | None =>
        record (CallClientNew conf) ;;
        let '(cl, err) := clientNew w conf in
        match err with
        | Some err => ret (inr (Errorf "failed to create client: %w" [AError err]))
        | None =>
            let cl := NewNamespacedClient cl namespaceFilter in
            record (CallConstructIngressesFromCluster cl) ;;
            let '(ingressList, err) := ConstructIngressesFromCluster w cl ingressList in
            match err with
            | Some err =>
                ret (inr (Errorf
                  "failed to get ingress resources from kubenetes cluster: %w"
                  [AError err]))
            | None => ret (inl ingressList)
            end
        end
    end.

(** getIngessList; a nil *IngressList is [None]. *)
Definition getIngessList (namespaceFilter inputFile : string)
  : M (option IngressList * option error) :=
  let ingressList := {| Items := [] |} in
  r <- acquire namespaceFilter inputFile ingressList ;;
  match r with
  | inr err => ret (None, Some err)
  | inl ingressList =>
      if (len (Items ingressList) =? 0)%Z then
        let msg := "No resources found" in
        if negb (namespaceFilter =? "") then
          ret (None, Some (Errorf "%s in %s namespace" [AString msg; AString namespaceFilter]))
        else
          ret (None, Some (Errorf msg []))
      else
        ret (Some ingressList, None)
  end.

(** pr.resourcePrinter.PrintObj(obj, os.Stdout) *)
Definition printObj (obj : Object) : M (option error) :=
  pr <- getRunner ;;
  match resourcePrinter pr with
  | None => panic
  | Some p =>
      record (CallPrintObj obj) ;;
      let '(p', bytes, err) := PrintObj p obj in
      modifyRunner (set_resourcePrinter (Some p')) ;;
      write bytes ;;
      ret err
  end.

Definition outputResult (httpRoutes : list HTTPRoute) (gateways : list Gateway) : M unit :=
  forRange gateways (fun g =>
    err <- printObj (GatewayObject g) ;;
    match err with
    | Some err =>
        Printf ("# Error printing %s HTTPRoute: %v" ++ LF)
               [AString (Name (gatewayMeta g)); AError err]
    | None => ret tt
    end) ;;
  forRange httpRoutes (fun r =>
    err <- printObj (HTTPRouteObject r) ;;
    match err with
    | Some err =>
        Printf ("# Error printing %s HTTPRoute: %v" ++ LF)
               [AString (Name (httpRouteMeta r)); AError err]
    | None => ret tt
    end).

(** PrintGatewaysAndHTTPRoutes reads from the source, constructs the
    ingresses, converts them and prints the result.  Its parameters, the
    cobra command and the positional arguments, are not used. *)
Definition PrintGatewaysAndHTTPRoutes : M (option error) :=
  err <- initializeResourcePrinter ;;
  match err with
  | Some err =>
      ret (Some (Errorf "failed to initialize resrouce printer: %w" [AError err]))
  | None =>
  err <- initializeNamespaceFilter ;;
  match err with
  | Some err =>
      ret (Some (Errorf "failed to initialize namespace filter: %w" [AError err]))
  | None =>
  pr <- getRunner ;;
  ' (ingressList, err) <- getIngessList (namespaceFilter pr) (inputFile pr) ;;
  match err with
  | Some err =>
      ret (Some (Errorf "failed to get ingresses from source: %w" [AError err]))
  | None =>
  match ingressList with
  | None => panic
  | Some ingressList =>
  record (CallIngresses2GatewaysAndHTTPRoutes (Items ingressList)) ;;
  let '(httpRoutes, gateways, errList) :=
    Ingresses2GatewaysAndHTTPRoutes (Items ingressList) in
  if (len errList >? 0)%Z then
    let errMsg := Errorf (LF ++ "# Encountered %d errors") [AInt (len errList)] in
    ret (Some (fold_left
                 (fun errMsg err => Errorf (LF ++ "%w # %s") [AError errMsg; AError err])
                 errList errMsg))
  else
    outputResult httpRoutes gateways ;;
    ret None
  end end end end.

(** newPrintCommand: the runner once the flags --output, --input_file,
    --namespace and --all-namespaces are bound to its fields; the other
    fields hold their zero values. *)
Definition flagsRunner (output input_file namespace : string) (all_namespaces : bool)
  : PrintRunner :=
  {| outputFormat := output;
     inputFile := input_file;
     namespace := namespace;
     allNamespaces := all_namespaces;
     resourcePrinter := None;
     namespaceFilter := "" |}.

(** The state in which a process calls the command. *)
Definition start (pr : PrintRunner) : State :=
  {| runner := pr; trace := []; stdout := "" |}.

(** ** Vocabulary of the statements *)

(** The objects handed to PrintObj, read off a trace. *)
Fixpoint printed (t : list Event) : list Object :=
  match t with
  | [] => []
  | CallPrintObj obj :: t' => obj :: printed t'
  | _ :: t' => printed t'
  end.

(** Whether an event is a file read or a cluster access. *)
Definition isFetch (e : Event) : bool :=
  match e with
  | CallConstructIngressesFromFile _ _ | CallGetConfig | CallClientNew _
  | CallConstructIngressesFromCluster _ => true
  | _ => false
  end.

Definition objectName (obj : Object) : string :=
  match obj with
  | GatewayObject g => Name (gatewayMeta g)
  | HTTPRouteObject r => Name (httpRouteMeta r)
  end.

(** The records of a conversion in rendering order: gateways, then routes. *)
Definition renderOrder (httpRoutes : list HTTPRoute) (gateways : list Gateway) : list Object :=
  (map GatewayObject gateways ++ map HTTPRouteObject httpRoutes)%list.

(** The diagnostic line of a record whose PrintObj returned [err]. *)
Definition diagnostic (obj : Object) (err : error) : string :=
  "# Error printing " ++ objectName obj ++ " HTTPRoute: " ++ Error err ++ LF.

(** The printer once it has printed [objs] in order. *)
Fixpoint printerAfter (p : ResourcePrinter) (objs : list Object) : ResourcePrinter :=
  match objs with
  | [] => p
  | obj :: objs' => printerAfter (fst (fst (PrintObj p obj))) objs'
  end.

(** What reaches standard output when [objs] are printed in order: for each
    record the bytes of PrintObj, then its diagnostic line when PrintObj
    returned an error. *)
Fixpoint rendering (p : ResourcePrinter) (objs : list Object) : string :=
  match objs with
  | [] => ""
  | obj :: objs' =>
      let '(p', bytes, err) := PrintObj p obj in
      bytes
      ++ match err with
         | Some err => diagnostic obj err
         | None => ""
         end
      ++ rendering p' objs'
  end.

(** The acquisition of getIngessList succeeds with the list [l]: from the
    file when an input file is given, from the cluster otherwise. *)
Definition yields (w : World) (namespaceFilter inputFile : string) (l : IngressList) : Prop :=
  (inputFile <> ""
   /\ ConstructIngressesFromFile w {| Items := [] |} inputFile namespaceFilter = (l, None))
  \/
  (inputFile = ""
   /\ exists conf cl,
        GetConfig w = (conf, None)
        /\ clientNew w conf = (cl, None)
        /\ ConstructIngressesFromCluster w (NewNamespacedClient cl namespaceFilter)
              {| Items := [] |} = (l, None)).

(** The message print.go builds from the errors of a conversion. *)
Definition aggregate (errList : list error) : error :=
  fold_left
    (fun errMsg err => Errorf (LF ++ "%w # %s") [AError errMsg; AError err])
    errList
    (Errorf (LF ++ "# Encountered %d errors") [AInt (len errList)]).

(** The state once a printer [p] has printed [objs] in order from [s]. *)
Definition rendered (p : ResourcePrinter) (objs : list Object) (s : State) : State :=
  {| runner := set_resourcePrinter (Some (printerAfter p objs)) (runner s);
     trace := (trace s ++ map CallPrintObj objs)%list;
     stdout := stdout s ++ rendering p objs |}.

(** The run started in [s] passes printer selection, namespace resolution
    and acquisition, and reaches the conversion in state [s3] with the
    list [l]. *)
Definition reachesConversion (w : World) (s s3 : State) (l : IngressList) : Prop :=
  exists s1 s2,
    initializeResourcePrinter w s = Normal None s1
    /\ initializeNamespaceFilter w s1 = Normal None s2
    /\ getIngessList (namespaceFilter (runner s2)) (inputFile (runner s2)) w s2
       = Normal (Some l, None) s3.

(** What a file-backed run returns and leaves on standard output once the
    printer [p] and the filter are set, from the answer [(l, err)] of the
    file reader: the fetch error, the empty-list error, the aggregated
    conversion error, or nil with the rendering appended to [out]. *)
Definition fileRun (p : ResourcePrinter) (out : string)
    (answer : IngressList * option error) (namespaceFilter : string)
  : option error * string :=
  let wrap err := Errorf "failed to get ingresses from source: %w" [AError err] in
  match answer with
  | (_, Some err) =>
      (Some (wrap (Errorf "failed to open input file: %w" [AError err])), out)
  | (l, None) =>
      if (len (Items l) =? 0)%Z then
        if negb (namespaceFilter =? "") then
          (Some (wrap (Errorf "%s in %s namespace"
                              [AString "No resources found"; AString namespaceFilter])), out)
        else (Some (wrap (Errorf "No resources found" [])), out)
      else
        let '(httpRoutes, gateways, errList) := Ingresses2GatewaysAndHTTPRoutes (Items l) in
        if (len errList >? 0)%Z then (Some (aggregate errList), out)
        else (None, out ++ rendering p (renderOrder httpRoutes gateways))
  end.

(** Whether an event reads the manifest file. *)
Definition isFileRead (e : Event) : bool :=
  match e with
  | CallConstructIngressesFromFile _ _ => true
  | _ => false
  end.

(** Whether an event loads the cluster configuration, builds a client or
    lists from the cluster. *)
Definition isClusterAccess (e : Event) : bool :=
  match e with
  | CallGetConfig | CallClientNew _ | CallConstructIngressesFromCluster _ => true
  | _ => false
  end.

(** [n] applications of the method Unwrap. *)
Fixpoint unwrapN (n : nat) (e : error) : option error :=
  match n with
  | O => Some e
  | S n' =>
      match Unwrap e with
      | Some e' => unwrapN n' e'
      | None => None
      end
  end.

(** [n] line feeds. *)
Fixpoint newlines (n : nat) : string :=
  match n with
  | O => ""
  | S n' => LF ++ newlines n'
  end.

(** The messages of a list of errors, each behind the separator print.go
    puts before it. *)
Fixpoint listed (errList : list error) : string :=
  match errList with
  | [] => ""
  | err :: errList' => " # " ++ Error err ++ listed errList'
  end.

(** The fields of a runner that the flags set. *)
Definition sameFlags (pr pr' : PrintRunner) : Prop :=
  outputFormat pr' = outputFormat pr
  /\ inputFile pr' = inputFile pr
  /\ namespace pr' = namespace pr
  /\ allNamespaces pr' = allNamespaces pr.

End PrintCommand.

Arguments Normal {API A} a s.
Arguments Panic {API A} s.

(** ** A concrete setting

    Manifests after pkg/i2gw/testdata/input-file.yaml, a converter that
    refuses an ingress without class, and printers that refuse a record
    without name. *)

#[export] Instance manifests : APITypes :=
  {| IngressSpec := string;
     GatewaySpec := string;
     HTTPRouteSpec := string;
     Config := string;
     Client := string |}.

Definition ingress (name ns class : string) : Ingress :=
  {| ingressMeta := {| Name := name; Namespace := ns |}; ingressSpec := class |}.

Definition ingress1 : Ingress := ingress "ingress1" "namespace1" "ingressClass1".
Definition ingress2 : Ingress := ingress "ingress2" "namespace2" "ingressClass2".
Definition ingressNoNamespace : Ingress :=
  ingress "ingress-no-namespace" "" "ingressClassNoNamespace".
Definition ingressNoClass : Ingress := ingress "ingress3" "namespace1" "".
Definition ingressNoClass' : Ingress := ingress "ingress4" "namespace2" "".
Definition ingressNoName : Ingress := ingress "" "namespace1" "ingressClass1".

Definition inNamespace (namespaceFilter : string) (i : Ingress) : bool :=
  (namespaceFilter =? "") || (Namespace (ingressMeta i) =? namespaceFilter).

Definition convertible (i : Ingress) : bool := negb (ingressSpec i =? "").

Definition routeOf (i : Ingress) : HTTPRoute :=
  {| httpRouteMeta := ingressMeta i; httpRouteSpec := ingressSpec i |}.

Definition gatewayOf (i : Ingress) : Gateway :=
  {| gatewayMeta := ingressMeta i; gatewaySpec := ingressSpec i |}.

Definition noClass (i : Ingress) : error :=
  errorString ("ingress " ++ Name (ingressMeta i) ++ " has no class").

Definition sampleConvert (ingresses : list Ingress)
  : list HTTPRoute * list Gateway * list error :=
  (map routeOf (filter convertible ingresses),
   map gatewayOf (filter convertible ingresses),
   map noClass (filter (fun i => negb (convertible i)) ingresses)).

Definition samplePrintObj (p : ResourcePrinter) (obj : Object)
  : ResourcePrinter * string * option error :=
  let name := match obj with
              | GatewayObject g => Name (gatewayMeta g)
              | HTTPRouteObject r => Name (httpRouteMeta r)
              end in
  match p with
  | YAMLPrinter n =>
      let sep := if (n >? 0)%Z then "---" ++ LF else "" in
      if name =? "" then (YAMLPrinter (n + 1), sep, Some (errorString "record without name"))
      else (YAMLPrinter (n + 1), sep ++ "name: " ++ name ++ LF, None)
  | JSONPrinter =>
      if name =? "" then (JSONPrinter, "", Some (errorString "record without name"))
      else (JSONPrinter, "{name: " ++ name ++ "}" ++ LF, None)
  end.

#[export] Instance samplePackages : Packages :=
  {| Ingresses2GatewaysAndHTTPRoutes := sampleConvert;
     PrintObj := samplePrintObj;
     NewNamespacedClient := fun _ ns => ns |}.

(** A machine on which the kubeconfig lookup answers [lookup], the file
    input-file.yaml holds [onDisk] (no file when [None]) and the cluster
    holds [inCluster] (no cluster when [None]).  Both readers keep a record
    when the filter is empty or equals its namespace. *)
Definition machine (lookup : string * option error)
    (onDisk inCluster : option (list Ingress)) : World :=
  {| kubeConfigNamespace := (fst lookup, false, snd lookup);
     ConstructIngressesFromFile := fun l inputFile namespaceFilter =>
       match onDisk with
       | Some items =>
           if inputFile =? "input-file.yaml" then
             ({| Items := (Items l ++ filter (inNamespace namespaceFilter) items)%list |},
              None)
           else (l, Some (errorString "no such file or directory"))
       | None => (l, Some (errorString "no such file or directory"))
       end;
     GetConfig :=
       match inCluster with
       | Some _ => ("https://cluster.example", None)
       | None => ("", Some (errorString "no configuration has been provided"))
       end;
     clientNew := fun conf => (conf, None);
     ConstructIngressesFromCluster := fun cl l =>
       match inCluster with
       | Some items =>
           ({| Items := (Items l ++ filter (inNamespace cl) items)%list |}, None)
       | None => (l, Some (errorString "connection refused"))
       end |}.

(** No kubeconfig and no cluster; the file holds [items]. *)
Definition fileWorld (items : list Ingress) : World :=
  machine ("", Some (errorString "no configuration has been provided")) (Some items) None.

(** A kubeconfig with namespace [ambient] and a cluster holding [items];
    no file. *)
Definition clusterWorld (ambient : string) (items : list Ingress) : World :=
  machine (ambient, None) None (Some items).

(** The state in which a file-backed run with printer [p], on a machine
    without kubeconfig, reaches the conversion. *)
Definition afterFetch (p : ResourcePrinter) (pr : PrintRunner) : State :=
  with_event (CallConstructIngressesFromFile (inputFile pr) "")
    (with_runner (set_namespaceFilter "" (set_resourcePrinter (Some p) pr))
       (with_event CallNamespace (start pr))).

(** A machine with a kubeconfig for the namespace default whose cluster
    refuses the client when [clientErr] holds an error, and otherwise
    answers the listing with [listErr]. *)
Definition faultyCluster (clientErr listErr : option error) : World :=
  {| kubeConfigNamespace := ("default", false, None);
     ConstructIngressesFromFile := fun l _ _ =>
       (l, Some (errorString "no such file or directory"));
     GetConfig := ("https://cluster.example", None);
     clientNew := fun conf => (conf, clientErr);
     ConstructIngressesFromCluster := fun _ l => (l, listErr) |}.

(** The state of a run once the printer [p] is installed. *)
Definition withPrinter (p : ResourcePrinter) (pr : PrintRunner) : State :=
  with_runner (set_resourcePrinter (Some p) pr) (start pr).

(** ** Properties *)

Section Properties.

Context `{API : APITypes} `{Pkg : !Packages}.

(** *** Strings *)

Lemma append_nil_r (s : string) : s ++ "" = s.
Proof. induction s as [| c s IH]; cbn; [reflexivity | now rewrite IH]. Qed.

Lemma append_assoc (a b c : string) : (a ++ b) ++ c = a ++ b ++ c.
Proof. induction a as [| x a IH]; cbn; [reflexivity | now rewrite IH]. Qed.

Lemma Contains_refl (s : string) : Contains s s.
Proof. exists "", "". cbn. now rewrite append_nil_r. Qed.

Lemma Contains_trans (a b c : string) : Contains a b -> Contains b c -> Contains a c.
Proof.
  intros (p1 & q1 & ->) (p2 & q2 & ->).
  exists (p1 ++ p2), (q2 ++ q1).
  now rewrite !append_assoc.
Qed.

Lemma Contains_append_r (pre s sub : string) : Contains s sub -> Contains (pre ++ s) sub.
Proof.
  intros (p & q & ->). exists (pre ++ p), q. now rewrite append_assoc.
Qed.

Lemma Contains_append_l (s post sub : string) : Contains s sub -> Contains (s ++ post) sub.
Proof.
  intros (p & q & ->). exists p, (q ++ post). now rewrite !append_assoc.
Qed.



(** *** The stages, one equation each *)

Lemma initializeResourcePrinter_eq (w : World) (s : State) :
  initializeResourcePrinter w s =
  if (outputFormat (runner s) =? "yaml") || (outputFormat (runner s) =? "") then
    Normal None (with_runner (set_resourcePrinter (Some (YAMLPrinter 0)) (runner s)) s)
  else if outputFormat (runner s) =? "json" then
    Normal None (with_runner (set_resourcePrinter (Some JSONPrinter) (runner s)) s)
  else
    Normal (Some (Errorf "%s is not a supported output format"
                         [AString (outputFormat (runner s))])) s.
Proof.
  unfold initializeResourcePrinter, bind, getRunner.
  destruct (_ || _); [reflexivity |].
  destruct (_ =? "json"); reflexivity.
Qed.

Lemma initializeNamespaceFilter_eq (w : World) (s : State) :
  initializeNamespaceFilter w s =
  if allNamespaces (runner s) then
    Normal None (with_runner (set_namespaceFilter "" (runner s)) s)
  else if namespace (runner s) =? "" then
    let s1 := with_event CallNamespace s in
    if negb (isNil (snd (kubeConfigNamespace w))) && (inputFile (runner s) =? "") then
      Normal (snd (kubeConfigNamespace w)) s1
    else
      Normal None
        (with_runner (set_namespaceFilter (fst (fst (kubeConfigNamespace w))) (runner s)) s1)
  else
    Normal None (with_runner (set_namespaceFilter (namespace (runner s)) (runner s)) s).
Proof.
  unfold initializeNamespaceFilter, getNamespaceInCurrentContext, bind, getRunner, ask.
  destruct (allNamespaces (runner s)); [reflexivity |].
  destruct (namespace (runner s) =? ""); [| reflexivity].
  cbn. destruct (kubeConfigNamespace w) as [[ns ov] err]. cbn.
  destruct (negb (isNil err) && (inputFile (runner s) =? "")); reflexivity.
Qed.

(** The run, stage by stage. *)
Lemma PrintGatewaysAndHTTPRoutes_eq (w : World) (s : State) :
  PrintGatewaysAndHTTPRoutes w s =
  match initializeResourcePrinter w s with
  | Panic s1 => Panic s1
  | Normal (Some err) s1 =>
      Normal (Some (Errorf "failed to initialize resrouce printer: %w" [AError err])) s1
  | Normal None s1 =>
  match initializeNamespaceFilter w s1 with
  | Panic s2 => Panic s2
  | Normal (Some err) s2 =>
      Normal (Some (Errorf "failed to initialize namespace filter: %w" [AError err])) s2
  | Normal None s2 =>
  match getIngessList (namespaceFilter (runner s2)) (inputFile (runner s2)) w s2 with
  | Panic s3 => Panic s3
  | Normal (_, Some err) s3 =>
      Normal (Some (Errorf "failed to get ingresses from source: %w" [AError err])) s3
  | Normal (None, None) s3 => Panic s3
  | Normal (Some l, None) s3 =>
      let s4 := with_event (CallIngresses2GatewaysAndHTTPRoutes (Items l)) s3 in
      let '(httpRoutes, gateways, errList) := Ingresses2GatewaysAndHTTPRoutes (Items l) in
      if (len errList >? 0)%Z then Normal (Some (aggregate errList)) s4
      else
        match outputResult httpRoutes gateways w s4 with
        | Panic s5 => Panic s5
        | Normal _ s5 => Normal None s5
        end
  end end end.
Proof.
  unfold PrintGatewaysAndHTTPRoutes. unfold bind at 1.
  destruct (initializeResourcePrinter w s) as [[e |] s1 | s1]; try reflexivity.
  unfold bind at 1.
  destruct (initializeNamespaceFilter w s1) as [[e |] s2 | s2]; try reflexivity.
  unfold bind at 1. unfold getRunner at 1. unfold bind at 1.
  destruct (getIngessList _ _ w s2) as [[[l |] [e |]] s3 | s3]; try reflexivity.
  unfold bind at 1. unfold record at 1.
  destruct (Ingresses2GatewaysAndHTTPRoutes (Items l)) as [[httpRoutes gateways] errList].
  cbv zeta. destruct (len errList >? 0)%Z; reflexivity.
Qed.

(** *** Namespace resolution *)

(** C2. Whatever the runner holds, with allNamespaces set
    initializeNamespaceFilter returns no error and leaves the empty string
    in namespaceFilter; the explicit namespace is not read and the ambient
    namespace is not looked up. *)
Theorem allNamespaces_precedence (w : World) (s : State) :
  allNamespaces (runner s) = true ->
  exists s',
    initializeNamespaceFilter w s = Normal None s'
    /\ namespaceFilter (runner s') = ""
    /\ trace s' = trace s.
Proof.
  intros Hall. rewrite initializeNamespaceFilter_eq, Hall.
  eexists. repeat split.
Qed.

(** C3. On a cluster-backed run (no input file), without allNamespaces and
    without an explicit namespace, a failed lookup of the ambient namespace
    makes initializeNamespaceFilter return that error; the filter is left
    as it was.  The error is fatal: PrintGatewaysAndHTTPRoutes returns an
    error too, having fetched and written nothing. *)
Theorem cluster_lookup_failure_is_fatal
    (w : World) (s : State) (ns : string) (overridden : bool) (err : error) :
  inputFile (runner s) = "" ->
  allNamespaces (runner s) = false ->
  namespace (runner s) = "" ->
  kubeConfigNamespace w = (ns, overridden, Some err) ->
  (exists s',
     initializeNamespaceFilter w s = Normal (Some err) s'
     /\ namespaceFilter (runner s') = namespaceFilter (runner s))
  /\ (exists e s',
        PrintGatewaysAndHTTPRoutes w s = Normal (Some e) s'
        /\ stdout s' = stdout s
        /\ (trace s' = trace s \/ trace s' = (trace s ++ [CallNamespace])%list)).
Proof.
  intros Hfile Hall Hns Hlookup.
  assert (Hstage : forall s0,
            inputFile (runner s0) = "" ->
            allNamespaces (runner s0) = false ->
            namespace (runner s0) = "" ->
            initializeNamespaceFilter w s0 = Normal (Some err) (with_event CallNamespace s0)).
  { intros s0 Hf Ha Hn.
    rewrite initializeNamespaceFilter_eq, Ha, Hn, Hf, Hlookup. reflexivity. }
  split.
  - rewrite (Hstage s Hfile Hall Hns). eexists. split; reflexivity.
  - rewrite PrintGatewaysAndHTTPRoutes_eq, initializeResourcePrinter_eq.
    destruct (_ || _); [| destruct (_ =? "json")].
    + rewrite (Hstage (with_runner (set_resourcePrinter (Some (YAMLPrinter 0)) (runner s)) s)
                 Hfile Hall Hns).
      eexists. eexists.
      split; [reflexivity |]. split; [reflexivity | right; reflexivity].
    + rewrite (Hstage (with_runner (set_resourcePrinter (Some JSONPrinter) (runner s)) s)
                 Hfile Hall Hns).
      eexists. eexists.
      split; [reflexivity |]. split; [reflexivity | right; reflexivity].
    + eexists. eexists. split; [reflexivity |]. split; [reflexivity | left; reflexivity].
Qed.

(** C4. On a file-backed run, without allNamespaces and without an explicit
    namespace, a failed lookup of the ambient namespace is not an error:
    initializeNamespaceFilter returns nil and the filter is the empty
    string.  The failed lookup hands back the empty namespace, as
    kubeConfig.Namespace() of client-go does with every error. *)
Theorem file_lookup_failure_degrades
    (w : World) (s : State) (overridden : bool) (err : error) :
  inputFile (runner s) <> "" ->
  allNamespaces (runner s) = false ->
  namespace (runner s) = "" ->
  kubeConfigNamespace w = ("", overridden, Some err) ->
  exists s',
    initializeNamespaceFilter w s = Normal None s'
    /\ namespaceFilter (runner s') = "".
Proof.
  intros Hfile Hall Hns Hlookup.
  rewrite initializeNamespaceFilter_eq, Hall, Hns, Hlookup. cbn.
  apply String.eqb_neq in Hfile. rewrite Hfile. cbn.
  eexists. split; reflexivity.
Qed.

(** *** Printer selection *)

(** C10. The empty output format is accepted: initializeResourcePrinter
    returns no error and installs a fresh YAMLPrinter, the very printer it
    installs for the format yaml. *)
Theorem empty_format_selects_yaml (w : World) (s : State) :
  outputFormat (runner s) = "" ->
  exists s',
    initializeResourcePrinter w s = Normal None s'
    /\ resourcePrinter (runner s') = Some (YAMLPrinter 0)
    /\ forall s0, outputFormat (runner s0) = "yaml" ->
         exists s0',
           initializeResourcePrinter w s0 = Normal None s0'
           /\ resourcePrinter (runner s0') = resourcePrinter (runner s').
Proof.
  intros Hfmt. rewrite initializeResourcePrinter_eq, Hfmt.
  eexists. split; [reflexivity |]. split; [reflexivity |].
  intros s0 H0. rewrite initializeResourcePrinter_eq, H0.
  eexists. split; reflexivity.
Qed.

(** C6, amended. An output format other than yaml, json and the empty
    string is refused by initializeResourcePrinter, and
    PrintGatewaysAndHTTPRoutes returns that error, wrapped, in the state
    it started from: no external call was made, nothing was written, the
    runner is untouched. *)
Theorem unsupported_format_fails_fast (w : World) (s : State) :
  outputFormat (runner s) <> "yaml" ->
  outputFormat (runner s) <> "" ->
  outputFormat (runner s) <> "json" ->
  exists e0 e,
    initializeResourcePrinter w s = Normal (Some e0) s
    /\ Error e0 = outputFormat (runner s) ++ " is not a supported output format"
    /\ PrintGatewaysAndHTTPRoutes w s = Normal (Some e) s
    /\ Error e = "failed to initialize resrouce printer: " ++ Error e0
    /\ Unwrap e = Some e0.
Proof.
  intros Hy He Hj.
  apply String.eqb_neq in Hy, He, Hj.
  assert (Hinit : initializeResourcePrinter w s =
                  Normal (Some (Errorf "%s is not a supported output format"
                                       [AString (outputFormat (runner s))])) s).
  { rewrite initializeResourcePrinter_eq, Hy, He, Hj. reflexivity. }
  eexists. eexists. split; [exact Hinit |].
  split; [reflexivity |].
  unfold PrintGatewaysAndHTTPRoutes. unfold bind at 1. rewrite Hinit.
  split; [reflexivity |].
  cbn. rewrite append_nil_r. split; reflexivity.
Qed.

(** *** Acquisition *)

Lemma acquire_yields (w : World) (s : State) (nf inf : string) (l : IngressList) :
  yields w nf inf l ->
  exists s1, acquire nf inf {| Items := [] |} w s = Normal (inl l) s1.
Proof.
  intros [[Hinf Hfile] | [Hinf (conf & cl & Hconf & Hnew & Hlist)]].
  - apply String.eqb_neq in Hinf.
    unfold acquire, bind, ask. rewrite Hinf. cbn. rewrite Hfile.
    eexists. reflexivity.
  - subst inf.
    unfold acquire, bind, ask. cbn. rewrite Hconf. cbn. rewrite Hnew. cbn.
    rewrite Hlist. eexists. reflexivity.
Qed.

(** C5. When the acquisition, from the file or from the cluster, succeeds
    with an empty list, getIngessList returns a nil list and an error.
    With an empty filter the message is exactly "No resources found"; with
    a filter it is "No resources found in <filter> namespace", which holds
    the filter. *)
Theorem empty_acquisition_fails
    (w : World) (s : State) (namespaceFilter inputFile : string) (l : IngressList) :
  yields w namespaceFilter inputFile l ->
  Items l = [] ->
  exists e s',
    getIngessList namespaceFilter inputFile w s = Normal (None, Some e) s'
    /\ Contains (Error e) "No resources found"
    /\ (namespaceFilter = "" -> Error e = "No resources found")
    /\ (namespaceFilter <> "" ->
        Error e = "No resources found in " ++ namespaceFilter ++ " namespace"
        /\ Contains (Error e) namespaceFilter).
Proof.
  intros Hy Hempty.
  destruct (acquire_yields w s _ _ _ Hy) as [s1 Hacq].
  unfold getIngessList. unfold bind at 1. rewrite Hacq, Hempty.
  change (len (@nil Ingress) =? 0)%Z with true. cbv iota.
  destruct (String.eqb_spec namespaceFilter "") as [-> | Hne].
  - exists (Errorf "No resources found" []), s1.
    split; [reflexivity |]. split; [apply Contains_refl |].
    split; [reflexivity | intros H; now elim H].
  - exists (Errorf "%s in %s namespace"
                   [AString "No resources found"; AString namespaceFilter]), s1.
    split; [reflexivity |].
    split; [exists "", (" in " ++ namespaceFilter ++ " namespace"); reflexivity |].
    split; [intros H; now elim Hne |].
    intros _. split; [reflexivity |].
    exists "No resources found in ", " namespace". reflexivity.
Qed.

(** *** Rendering *)

Lemma printerAfter_app (p : ResourcePrinter) (a b : list Object) :
  printerAfter p (a ++ b) = printerAfter (printerAfter p a) b.
Proof.
  revert p. induction a as [| o a IH]; intros p; cbn; [reflexivity | apply IH].
Qed.

Lemma rendering_app (p : ResourcePrinter) (a b : list Object) :
  rendering p (a ++ b) = rendering p a ++ rendering (printerAfter p a) b.
Proof.
  revert p. induction a as [| o a IH]; intros p; cbn; [reflexivity |].
  destruct (PrintObj p o) as [[p' bytes] err]. cbn.
  now rewrite IH, !append_assoc.
Qed.

Lemma rendered_nil (p : ResourcePrinter) (s : State) :
  resourcePrinter (runner s) = Some p -> rendered p [] s = s.
Proof.
  destruct s as [[f i n a rp nf] t out]. cbn. intros ->.
  unfold rendered, set_resourcePrinter. cbn.
  now rewrite app_nil_r, append_nil_r.
Qed.

Lemma rendered_app (p : ResourcePrinter) (a b : list Object) (s : State) :
  rendered (printerAfter p a) b (rendered p a s) = rendered p (a ++ b) s.
Proof.
  unfold rendered, set_resourcePrinter. cbn.
  now rewrite printerAfter_app, rendering_app, map_app, app_assoc, append_assoc.
Qed.

(** The loop body shared by the two loops of outputResult. *)
Lemma forRange_print {A : Type} (inj : A -> Object) (w : World) (l : list A) :
  forall (s : State) (p : ResourcePrinter),
    resourcePrinter (runner s) = Some p ->
    forRange l
      (fun x =>
         bind (printObj (inj x))
           (fun err =>
              match err with
              | Some err =>
                  Printf ("# Error printing %s HTTPRoute: %v" ++ LF)
                         [AString (objectName (inj x)); AError err]
              | None => ret tt
              end)) w s
    = Normal tt (rendered p (map inj l) s).
Proof.
  induction l as [| x l IH]; intros s p Hp.
  - cbn. unfold ret. now rewrite rendered_nil.
  - cbn [forRange map]. unfold bind at 1.
    unfold bind at 1. unfold printObj. unfold bind at 1. unfold getRunner at 1.
    rewrite Hp. unfold bind at 1. unfold record at 1.
    destruct (PrintObj p (inj x)) as [[p' bytes] err] eqn:Hprint.
    unfold bind at 1. unfold modifyRunner at 1. unfold bind at 1. unfold write at 1.
    unfold ret at 1.
    set (s1 := with_output bytes _).
    assert (Hp1 : forall out, resourcePrinter (runner (with_output out s1)) = Some p')
      by reflexivity.
    replace (rendered p (inj x :: map inj l) s)
      with (rendered p' (map inj l)
              (with_output (match err with
                            | Some e => diagnostic (inj x) e
                            | None => ""
                            end) s1)).
    + destruct err as [e |].
      * unfold Printf, write. rewrite <- (IH _ p' (Hp1 _)). reflexivity.
      * unfold ret at 1. rewrite <- (IH _ p' (Hp1 _)).
        f_equal. subst s1. unfold with_output. cbn. now rewrite append_nil_r.
    + subst s1. unfold rendered, with_output, with_runner, with_event,
        set_resourcePrinter. cbn. rewrite Hprint. cbn.
      now rewrite <- app_assoc, !append_assoc.
Qed.

Lemma outputResult_eq (w : World) (s : State) (p : ResourcePrinter)
    (httpRoutes : list HTTPRoute) (gateways : list Gateway) :
  resourcePrinter (runner s) = Some p ->
  outputResult httpRoutes gateways w s
  = Normal tt (rendered p (renderOrder httpRoutes gateways) s).
Proof.
  intros Hp. unfold outputResult. unfold bind at 1.
  pose proof (forRange_print GatewayObject w gateways s p Hp) as Hg.
  cbn [objectName] in Hg. rewrite Hg.
  pose proof (forRange_print HTTPRouteObject w httpRoutes
                (rendered p (map GatewayObject gateways) s)
                (printerAfter p (map GatewayObject gateways)) eq_refl) as Hr.
  cbn [objectName] in Hr. rewrite Hr.
  now rewrite rendered_app.
Qed.

(** C7. With a printer installed, outputResult returns and has called
    PrintObj once per record: on every gateway in the order given, then on
    every route in the order given.  Standard output has grown by the
    renderings of these records in that same order. *)
Theorem outputResult_order (w : World) (s : State) (p : ResourcePrinter)
    (httpRoutes : list HTTPRoute) (gateways : list Gateway) :
  resourcePrinter (runner s) = Some p ->
  exists s',
    outputResult httpRoutes gateways w s = Normal tt s'
    /\ trace s' =
       (trace s
        ++ map CallPrintObj (map GatewayObject gateways ++ map HTTPRouteObject httpRoutes))%list
    /\ stdout s' =
       stdout s
       ++ rendering p (map GatewayObject gateways ++ map HTTPRouteObject httpRoutes).
Proof.
  intros Hp. rewrite (outputResult_eq w s p _ _ Hp).
  eexists. split; [reflexivity |]. split; reflexivity.
Qed.

Lemma rendering_diagnostic (pre post : list Object) (obj : Object) (err : error) :
  forall p : ResourcePrinter,
    snd (PrintObj (printerAfter p pre) obj) = Some err ->
    Contains (rendering p (pre ++ obj :: post)) (diagnostic obj err).
Proof.
  intros p Herr. rewrite rendering_app. apply Contains_append_r.
  cbn [rendering].
  destruct (PrintObj (printerAfter p pre) obj) as [[p' bytes] e]. cbn in Herr.
  subst e. apply Contains_append_r, Contains_append_l, Contains_refl.
Qed.

(** *** The whole run *)

Lemma printed_app (a b : list Event) : printed (a ++ b) = (printed a ++ printed b)%list.
Proof.
  induction a as [| e a IH]; [reflexivity |].
  destruct e; cbn; rewrite IH; reflexivity.
Qed.

Lemma printed_calls (objs : list Object) : printed (map CallPrintObj objs) = objs.
Proof. induction objs as [| o objs IH]; cbn; [reflexivity | now rewrite IH]. Qed.

Lemma initializeResourcePrinter_ok (w : World) (s s1 : State) :
  initializeResourcePrinter w s = Normal None s1 ->
  exists p, s1 = with_runner (set_resourcePrinter (Some p) (runner s)) s.
Proof.
  rewrite initializeResourcePrinter_eq.
  destruct (_ || _); [intros [= <-]; eexists; reflexivity |].
  destruct (_ =? "json"); [intros [= <-]; eexists; reflexivity | discriminate].
Qed.

Lemma initializeNamespaceFilter_quiet (w : World) (s s2 : State) (r : option error) :
  initializeNamespaceFilter w s = Normal r s2 ->
  resourcePrinter (runner s2) = resourcePrinter (runner s)
  /\ stdout s2 = stdout s
  /\ printed (trace s2) = printed (trace s).
Proof.
  rewrite initializeNamespaceFilter_eq.
  destruct (allNamespaces (runner s)); [intros [= <- <-]; repeat split |].
  destruct (namespace (runner s) =? ""); [| intros [= <- <-]; repeat split].
  cbv zeta. destruct (_ && _); intros [= <- <-]; cbn; rewrite printed_app, app_nil_r;
    repeat split.
Qed.

Lemma acquire_quiet (w : World) (s s' : State) (nf inf : string) (l0 : IngressList)
    (r : IngressList + error) :
  acquire nf inf l0 w s = Normal r s' ->
  runner s' = runner s /\ stdout s' = stdout s /\ printed (trace s') = printed (trace s).
Proof.
  unfold acquire, bind, ask, record, ret.
  destruct (negb (inf =? "")).
  - destruct (ConstructIngressesFromFile w l0 inf nf) as [l [e |]];
      intros [= <- <-]; cbn; rewrite printed_app, app_nil_r; repeat split.
  - destruct (GetConfig w) as [conf [e |]];
      [intros [= <- <-]; cbn; rewrite printed_app, app_nil_r; repeat split |].
    destruct (clientNew w conf) as [cl [e |]];
      [intros [= <- <-]; cbn; rewrite !printed_app, !app_nil_r; repeat split |].
    destruct (ConstructIngressesFromCluster w _ l0) as [l [e |]];
      intros [= <- <-]; cbn; rewrite !printed_app, !app_nil_r; repeat split.
Qed.

Lemma getIngessList_quiet (w : World) (s s' : State) (nf inf : string)
    (r : option IngressList * option error) :
  getIngessList nf inf w s = Normal r s' ->
  runner s' = runner s /\ stdout s' = stdout s /\ printed (trace s') = printed (trace s).
Proof.
  unfold getIngessList. unfold bind at 1.
  destruct (acquire nf inf _ w s) as [[l | e] s1 | s1] eqn:Hacq; [| | discriminate].
  - destruct (len (Items l) =? 0)%Z; [destruct (negb (nf =? "")) |];
      intros [= <- <-]; eapply acquire_quiet; eassumption.
  - intros [= <- <-]. eapply acquire_quiet; eassumption.
Qed.

Lemma Error_wrap_step (errMsg err : error) :
  Error (Errorf (LF ++ "%w # %s") [AError errMsg; AError err])
  = LF ++ Error errMsg ++ " # " ++ Error err.
Proof. cbn. now rewrite append_nil_r. Qed.

Lemma fold_errors_contains (errList : list error) :
  forall errMsg : error,
    let e := fold_left
               (fun errMsg err => Errorf (LF ++ "%w # %s") [AError errMsg; AError err])
               errList errMsg in
    Contains (Error e) (Error errMsg)
    /\ forall err, In err errList -> Contains (Error e) (Error err).
Proof.
  induction errList as [| x errList IH]; intros errMsg; cbn zeta.
  - split; [apply Contains_refl | intros err []].
  - cbn [fold_left]. destruct (IH (Errorf (LF ++ "%w # %s") [AError errMsg; AError x]))
      as [Hacc Hrest].
    rewrite Error_wrap_step in Hacc.
    split.
    + eapply Contains_trans; [exact Hacc |].
      exists LF, (" # " ++ Error x). reflexivity.
    + intros err [<- | Hin]; [| now apply Hrest].
      eapply Contains_trans; [exact Hacc |].
      exists (LF ++ Error errMsg ++ " # "), "".
      now rewrite append_nil_r, !append_assoc.
Qed.

Lemma reachesConversion_quiet (w : World) (s s3 : State) (l : IngressList) :
  reachesConversion w s s3 l ->
  exists p,
    resourcePrinter (runner s3) = Some p
    /\ stdout s3 = stdout s
    /\ printed (trace s3) = printed (trace s).
Proof.
  intros (s1 & s2 & H1 & H2 & H3).
  destruct (initializeResourcePrinter_ok _ _ _ H1) as [p ->].
  destruct (initializeNamespaceFilter_quiet _ _ _ _ H2) as (Hp2 & Ho2 & Ht2).
  destruct (getIngessList_quiet _ _ _ _ _ _ H3) as (Hr3 & Ho3 & Ht3).
  exists p. rewrite Hr3, Hp2, Ho3, Ho2, Ht3, Ht2. repeat split.
Qed.

(** C1. When the run reaches the conversion and the converter returns at
    least one error, PrintGatewaysAndHTTPRoutes returns one error whose
    message holds the message of every error of the list, and the count
    line.  The run ends in the state of the conversion call: standard
    output is what it was and PrintObj has not been called. *)
Theorem conversion_errors_abort_the_run
    (w : World) (s s3 : State) (l : IngressList)
    (httpRoutes : list HTTPRoute) (gateways : list Gateway) (errList : list error) :
  reachesConversion w s s3 l ->
  Ingresses2GatewaysAndHTTPRoutes (Items l) = (httpRoutes, gateways, errList) ->
  errList <> [] ->
  exists e s',
    PrintGatewaysAndHTTPRoutes w s = Normal (Some e) s'
    /\ s' = with_event (CallIngresses2GatewaysAndHTTPRoutes (Items l)) s3
    /\ (forall err, In err errList -> Contains (Error e) (Error err))
    /\ Contains (Error e) ("# Encountered " ++ Itoa (len errList) ++ " errors")
    /\ stdout s' = stdout s
    /\ printed (trace s') = printed (trace s).
Proof.
  intros Hreach Hconv Hne.
  destruct (reachesConversion_quiet _ _ _ _ Hreach) as (p & _ & Hout & Htr).
  destruct Hreach as (s1 & s2 & H1 & H2 & H3).
  rewrite PrintGatewaysAndHTTPRoutes_eq, H1, H2, H3. cbv zeta. rewrite Hconv.
  assert (Hlen : (len errList >? 0)%Z = true).
  { destruct errList as [| x errList]; [now elim Hne |].
    unfold len. cbn [length]. apply Z.gtb_lt. lia. }
  rewrite Hlen.
  exists (aggregate errList). eexists. split; [reflexivity |].
  split; [reflexivity |].
  destruct (fold_errors_contains errList
              (Errorf (LF ++ "# Encountered %d errors") [AInt (len errList)]))
    as [Hacc Hall].
  split; [exact Hall |].
  split.
  - eapply Contains_trans; [exact Hacc |].
    exists LF, "". cbn. now rewrite append_nil_r.
  - cbn. rewrite printed_app, app_nil_r. split; assumption.
Qed.

(** C8. When the run reaches the conversion and the converter returns no
    error, PrintGatewaysAndHTTPRoutes returns nil whatever PrintObj
    answers.  outputResult returns, PrintObj has been called on every
    record, and standard output has grown by exactly the rendering of all
    the records, gateways first: for each record the bytes PrintObj wrote
    and, when it returned an error, the diagnostic line with the name of
    that record.  A failure leaves what was written before it in place,
    puts its line right after the bytes of its record, and is followed by
    the rendering of the remaining records. *)
Theorem render_failures_are_not_fatal
    (w : World) (s s3 : State) (l : IngressList)
    (httpRoutes : list HTTPRoute) (gateways : list Gateway) :
  reachesConversion w s s3 l ->
  Ingresses2GatewaysAndHTTPRoutes (Items l) = (httpRoutes, gateways, []) ->
  exists p s',
    resourcePrinter (runner s3) = Some p
    /\ outputResult httpRoutes gateways w
         (with_event (CallIngresses2GatewaysAndHTTPRoutes (Items l)) s3) = Normal tt s'
    /\ PrintGatewaysAndHTTPRoutes w s = Normal None s'
    /\ printed (trace s') =
       (printed (trace s) ++ map GatewayObject gateways ++ map HTTPRouteObject httpRoutes)%list
    /\ stdout s' =
       stdout s
       ++ rendering p (map GatewayObject gateways ++ map HTTPRouteObject httpRoutes)
    /\ forall pre obj post err,
         (map GatewayObject gateways ++ map HTTPRouteObject httpRoutes)%list
         = (pre ++ obj :: post)%list ->
         snd (PrintObj (printerAfter p pre) obj) = Some err ->
         Contains (stdout s')
           ("# Error printing " ++ objectName obj ++ " HTTPRoute: " ++ Error err ++ LF)
         /\ stdout s' =
            stdout s
            ++ rendering p pre
            ++ snd (fst (PrintObj (printerAfter p pre) obj))
            ++ ("# Error printing " ++ objectName obj ++ " HTTPRoute: " ++ Error err ++ LF)
            ++ rendering (fst (fst (PrintObj (printerAfter p pre) obj))) post.
Proof.
  intros Hreach Hconv.
  destruct (reachesConversion_quiet _ _ _ _ Hreach) as (p & Hp & Hout & Htr).
  destruct Hreach as (s1 & s2 & H1 & H2 & H3).
  set (s4 := with_event (CallIngresses2GatewaysAndHTTPRoutes (Items l)) s3).
  assert (Hp4 : resourcePrinter (runner s4) = Some p) by exact Hp.
  pose proof (outputResult_eq w s4 p httpRoutes gateways Hp4) as Hrender.
  exists p, (rendered p (renderOrder httpRoutes gateways) s4).
  split; [exact Hp |]. split; [exact Hrender |].
  split.
  { rewrite PrintGatewaysAndHTTPRoutes_eq, H1, H2, H3. cbv zeta. rewrite Hconv.
    change (len (@nil error) >? 0)%Z with false. cbv iota.
    fold s4. now rewrite Hrender. }
  split.
  { cbn. rewrite !printed_app, printed_calls, Htr. cbn. now rewrite app_nil_r. }
  assert (Hstdout : stdout (rendered p (renderOrder httpRoutes gateways) s4)
                    = stdout s
                      ++ rendering p
                           (map GatewayObject gateways ++ map HTTPRouteObject httpRoutes)).
  { cbn [stdout rendered]. unfold s4, with_event. cbn [stdout]. now rewrite Hout. }
  split; [exact Hstdout |].
  intros pre obj post err Hsplit Herr.
  split.
  - cbn [stdout rendered]. apply Contains_append_r.
    unfold renderOrder. rewrite Hsplit.
    now apply rendering_diagnostic.
  - rewrite Hstdout, Hsplit, rendering_app. cbn [rendering].
    destruct (PrintObj (printerAfter p pre) obj) as [[p' bytes] e]. cbn in Herr |- *.
    subst e. reflexivity.
Qed.

(** *** Determinism of a file-backed run *)

Lemma getIngessList_file_eq (w : World) (s : State) (nf inf : string) :
  inf <> "" ->
  getIngessList nf inf w s =
  let s1 := with_event (CallConstructIngressesFromFile inf nf) s in
  match ConstructIngressesFromFile w {| Items := [] |} inf nf with
  | (_, Some err) =>
      Normal (None, Some (Errorf "failed to open input file: %w" [AError err])) s1
  | (l, None) =>
      if (len (Items l) =? 0)%Z then
        if negb (nf =? "") then
          Normal (None, Some (Errorf "%s in %s namespace"
                                     [AString "No resources found"; AString nf])) s1
        else Normal (None, Some (Errorf "No resources found" [])) s1
      else Normal (Some l, None) s1
  end.
Proof.
  intros Hinf. apply String.eqb_neq in Hinf.
  unfold getIngessList, acquire. unfold bind at 1. unfold bind at 1. unfold ask at 1.
  rewrite Hinf. cbn [negb]. unfold bind at 1. unfold record at 1.
  destruct (ConstructIngressesFromFile w _ inf nf) as [l [e |]]; [reflexivity |].
  unfold ret at 1.
  destruct (len (Items l) =? 0)%Z; [destruct (negb (nf =? "")) |]; reflexivity.
Qed.

(** The rest of a file-backed run once the printer and the filter are set:
    its result and its standard output are those of [fileRun]. *)
Lemma file_run_tail (w : World) (s2 : State) (p : ResourcePrinter) :
  inputFile (runner s2) <> "" ->
  resourcePrinter (runner s2) = Some p ->
  exists r s',
    match getIngessList (namespaceFilter (runner s2)) (inputFile (runner s2)) w s2 with
    | Panic s3 => Panic s3
    | Normal (_, Some err) s3 =>
        Normal (Some (Errorf "failed to get ingresses from source: %w" [AError err])) s3
    | Normal (None, None) s3 => Panic s3
    | Normal (Some l, None) s3 =>
        let s4 := with_event (CallIngresses2GatewaysAndHTTPRoutes (Items l)) s3 in
        let '(httpRoutes, gateways, errList) := Ingresses2GatewaysAndHTTPRoutes (Items l) in
        if (len errList >? 0)%Z then Normal (Some (aggregate errList)) s4
        else
          match outputResult httpRoutes gateways w s4 with
          | Panic s5 => Panic s5
          | Normal _ s5 => Normal None s5
          end
    end = Normal r s'
    /\ (r, stdout s') =
       fileRun p (stdout s2)
         (ConstructIngressesFromFile w {| Items := [] |}
            (inputFile (runner s2)) (namespaceFilter (runner s2)))
         (namespaceFilter (runner s2)).
Proof.
  intros Hinf Hp. rewrite (getIngessList_file_eq w s2 _ _ Hinf). cbv zeta.
  unfold fileRun.
  destruct (ConstructIngressesFromFile w _ _ _) as [l [e |]].
  { eexists. eexists. split; reflexivity. }
  destruct (len (Items l) =? 0)%Z.
  { destruct (negb (_ =? "")); eexists; eexists; split; reflexivity. }
  destruct (Ingresses2GatewaysAndHTTPRoutes (Items l)) as [[httpRoutes gateways] errList].
  destruct (len errList >? 0)%Z.
  { eexists. eexists. split; reflexivity. }
  match goal with
  | |- context [outputResult _ _ w ?s4] =>
      rewrite (outputResult_eq w s4 p httpRoutes gateways Hp)
  end.
  eexists. eexists. split; reflexivity.
Qed.

Lemma initializeNamespaceFilter_file (w : World) (s : State) :
  inputFile (runner s) <> "" ->
  exists s2,
    initializeNamespaceFilter w s = Normal None s2
    /\ namespaceFilter (runner s2) =
       (if allNamespaces (runner s) then ""
        else if namespace (runner s) =? "" then fst (fst (kubeConfigNamespace w))
        else namespace (runner s))
    /\ inputFile (runner s2) = inputFile (runner s)
    /\ resourcePrinter (runner s2) = resourcePrinter (runner s)
    /\ stdout s2 = stdout s.
Proof.
  intros Hinf. apply String.eqb_neq in Hinf.
  rewrite initializeNamespaceFilter_eq, Hinf, andb_false_r.
  destruct (allNamespaces (runner s)); [eexists; repeat split |].
  destruct (namespace (runner s) =? ""); eexists; repeat split.
Qed.

(** A file-backed run returns, and its result and standard output are a
    function of the output format, the namespace flags, the ambient
    namespace and the answer of the file reader. *)
Lemma file_run (w : World) (s : State) :
  inputFile (runner s) <> "" ->
  exists r s',
    PrintGatewaysAndHTTPRoutes w s = Normal r s'
    /\ (r, stdout s') =
       let nf :=
         if allNamespaces (runner s) then ""
         else if namespace (runner s) =? "" then fst (fst (kubeConfigNamespace w))
         else namespace (runner s) in
       let answer :=
         ConstructIngressesFromFile w {| Items := [] |} (inputFile (runner s)) nf in
       if (outputFormat (runner s) =? "yaml") || (outputFormat (runner s) =? "") then
         fileRun (YAMLPrinter 0) (stdout s) answer nf
       else if outputFormat (runner s) =? "json" then
         fileRun JSONPrinter (stdout s) answer nf
       else
         (Some (Errorf "failed to initialize resrouce printer: %w"
                  [AError (Errorf "%s is not a supported output format"
                                  [AString (outputFormat (runner s))])]),
          stdout s).
Proof.
  intros Hinf. cbv zeta.
  rewrite PrintGatewaysAndHTTPRoutes_eq, initializeResourcePrinter_eq.
  assert (Htail : forall p,
    let s1 := with_runner (set_resourcePrinter (Some p) (runner s)) s in
    exists r s',
      match initializeNamespaceFilter w s1 with
      | Panic s2 => Panic s2
      | Normal (Some err) s2 =>
          Normal (Some (Errorf "failed to initialize namespace filter: %w" [AError err])) s2
      | Normal None s2 =>
      match getIngessList (namespaceFilter (runner s2)) (inputFile (runner s2)) w s2 with
      | Panic s3 => Panic s3
      | Normal (_, Some err) s3 =>
          Normal (Some (Errorf "failed to get ingresses from source: %w" [AError err])) s3
      | Normal (None, None) s3 => Panic s3
      | Normal (Some l, None) s3 =>
          let s4 := with_event (CallIngresses2GatewaysAndHTTPRoutes (Items l)) s3 in
          let '(httpRoutes, gateways, errList) :=
            Ingresses2GatewaysAndHTTPRoutes (Items l) in
          if (len errList >? 0)%Z then Normal (Some (aggregate errList)) s4
          else
            match outputResult httpRoutes gateways w s4 with
            | Panic s5 => Panic s5
            | Normal _ s5 => Normal None s5
            end
      end end = Normal r s'
      /\ (r, stdout s') =
         fileRun p (stdout s)
           (ConstructIngressesFromFile w {| Items := [] |} (inputFile (runner s))
              (if allNamespaces (runner s) then ""
               else if namespace (runner s) =? "" then fst (fst (kubeConfigNamespace w))
               else namespace (runner s)))
           (if allNamespaces (runner s) then ""
            else if namespace (runner s) =? "" then fst (fst (kubeConfigNamespace w))
            else namespace (runner s))).
  { intros p s1.
    destruct (initializeNamespaceFilter_file w s1 Hinf) as (s2 & -> & Hnf & Hin & Hp & Hout).
    assert (Hinf2 : inputFile (runner s2) <> "") by (rewrite Hin; exact Hinf).
    destruct (file_run_tail w s2 p Hinf2 Hp) as (r & s' & Hrun & Hres).
    exists r, s'. split; [exact Hrun |].
    rewrite Hres, Hnf, Hin, Hout. reflexivity. }
  destruct (_ || _); [apply Htail |].
  destruct (_ =? "json"); [apply Htail |].
  eexists. eexists. split; reflexivity.
Qed.

(** C9. Two invocations on the same input file, in any two worlds and from
    any two runner states that agree on the output format and the
    namespace flags, on the ambient namespace where it is consulted, on
    what the file reader answers for that file and on what standard output
    already holds, both return, with the same result and the same bytes on
    standard output. *)
Theorem file_run_deterministic (w1 w2 : World) (s1 s2 : State) :
  inputFile (runner s1) <> "" ->
  inputFile (runner s2) = inputFile (runner s1) ->
  outputFormat (runner s2) = outputFormat (runner s1) ->
  namespace (runner s2) = namespace (runner s1) ->
  allNamespaces (runner s2) = allNamespaces (runner s1) ->
  (allNamespaces (runner s1) = false -> namespace (runner s1) = "" ->
   fst (fst (kubeConfigNamespace w2)) = fst (fst (kubeConfigNamespace w1))) ->
  (forall namespaceFilter,
     ConstructIngressesFromFile w2 {| Items := [] |} (inputFile (runner s1)) namespaceFilter
     = ConstructIngressesFromFile w1 {| Items := [] |} (inputFile (runner s1)) namespaceFilter) ->
  stdout s2 = stdout s1 ->
  exists r s1' s2',
    PrintGatewaysAndHTTPRoutes w1 s1 = Normal r s1'
    /\ PrintGatewaysAndHTTPRoutes w2 s2 = Normal r s2'
    /\ stdout s2' = stdout s1'.
Proof.
  intros Hinf Hin Hfmt Hns Hall Hamb Hfile Hout.
  assert (Hinf2 : inputFile (runner s2) <> "") by (rewrite Hin; exact Hinf).
  destruct (file_run w1 s1 Hinf) as (r1 & s1' & Hrun1 & Hres1).
  destruct (file_run w2 s2 Hinf2) as (r2 & s2' & Hrun2 & Hres2).
  cbv zeta in Hres1, Hres2.
  rewrite Hin, Hfmt, Hns, Hall, Hout, !Hfile in Hres2.
  assert (Heq : (r2, stdout s2') = (r1, stdout s1')).
  { rewrite Hres1, Hres2.
    destruct (allNamespaces (runner s1)) eqn:Ea; [reflexivity |].
    destruct (String.eqb_spec (namespace (runner s1)) "") as [En | En]; [| reflexivity].
    now rewrite (Hamb eq_refl En). }
  injection Heq as -> Hstdout.
  exists r1, s1', s2'. repeat split; assumption.
Qed.

(** *** Further properties: namespace resolution *)

(** X1. With allNamespaces unset and an explicit namespace,
    initializeNamespaceFilter returns nil, stores that namespace unchanged
    as the filter, and does not look up the ambient namespace; nothing else
    in the state changes. *)
Theorem explicit_namespace_is_used_verbatim (w : World) (s : State) :
  allNamespaces (runner s) = false ->
  namespace (runner s) <> "" ->
  initializeNamespaceFilter w s
  = Normal None (with_runner (set_namespaceFilter (namespace (runner s)) (runner s)) s).
Proof.
  intros Hall Hns. apply String.eqb_neq in Hns.
  now rewrite initializeNamespaceFilter_eq, Hall, Hns.
Qed.

(** X2. With allNamespaces unset and no explicit namespace, a successful
    lookup makes the namespace of the current context the filter, on a
    file-backed run as on a cluster-backed one; the lookup is the only
    external call. *)
Theorem ambient_namespace_is_the_default
    (w : World) (s : State) (ns : string) (overridden : bool) :
  allNamespaces (runner s) = false ->
  namespace (runner s) = "" ->
  kubeConfigNamespace w = (ns, overridden, None) ->
  initializeNamespaceFilter w s
  = Normal None
      (with_runner (set_namespaceFilter ns (runner s)) (with_event CallNamespace s)).
Proof.
  intros Hall Hns Hlookup.
  now rewrite initializeNamespaceFilter_eq, Hall, Hns, Hlookup.
Qed.

(** X3. initializeNamespaceFilter returns an error exactly when
    allNamespaces is unset, no namespace is given, no input file is given
    and the lookup of the ambient namespace fails; the error is the one of
    the lookup. *)
Theorem namespace_resolution_fails_iff (w : World) (s : State) (err : error) :
  (exists s', initializeNamespaceFilter w s = Normal (Some err) s')
  <-> (allNamespaces (runner s) = false
       /\ namespace (runner s) = ""
       /\ inputFile (runner s) = ""
       /\ snd (kubeConfigNamespace w) = Some err).
Proof.
  rewrite initializeNamespaceFilter_eq. split.
  - intros [s' H].
    destruct (allNamespaces (runner s)); [discriminate |].
    destruct (String.eqb_spec (namespace (runner s)) "") as [Hns |]; [| discriminate].
    cbv zeta in H.
    destruct (snd (kubeConfigNamespace w)) as [e |]; [| discriminate].
    destruct (String.eqb_spec (inputFile (runner s)) "") as [Hf |]; [| discriminate].
    cbn in H. injection H as -> _. repeat split; assumption.
  - intros (-> & -> & -> & ->). eexists. reflexivity.
Qed.

(** X4. Whatever it returns, initializeNamespaceFilter leaves the flags,
    the printer and standard output as they were, and makes at most one
    external call, the lookup of the ambient namespace. *)
Theorem namespace_resolution_frame (w : World) (s : State) :
  exists r s',
    initializeNamespaceFilter w s = Normal r s'
    /\ sameFlags (runner s) (runner s')
    /\ resourcePrinter (runner s') = resourcePrinter (runner s)
    /\ stdout s' = stdout s
    /\ (trace s' = trace s \/ trace s' = (trace s ++ [CallNamespace])%list).
Proof.
  rewrite initializeNamespaceFilter_eq. unfold sameFlags.
  destruct (allNamespaces (runner s)) eqn:Hall.
  { eexists. eexists. split; [reflexivity |]. cbn. repeat split; auto. }
  destruct (namespace (runner s) =? "") eqn:Hns.
  - cbv zeta.
    destruct (_ && _); eexists; eexists; (split; [reflexivity |]); cbn; repeat split; auto.
  - eexists. eexists. split; [reflexivity |]. cbn. repeat split; auto.
Qed.

(** *** Further properties: printer selection *)

(** X5. initializeResourcePrinter succeeds exactly on the formats yaml, json
    and the empty string, compared as written.  When it succeeds it
    replaces whatever printer the runner held by a fresh one, a JSONPrinter
    for json and a YAMLPrinter otherwise, and changes nothing else; when it
    fails the state is untouched. *)
Theorem printer_selection_succeeds_iff (w : World) (s : State) :
  ((exists s', initializeResourcePrinter w s = Normal None s')
   <-> (outputFormat (runner s) = "yaml"
        \/ outputFormat (runner s) = ""
        \/ outputFormat (runner s) = "json"))
  /\ (forall s',
        initializeResourcePrinter w s = Normal None s' ->
        s' = with_runner
               (set_resourcePrinter
                  (Some (if outputFormat (runner s) =? "json" then JSONPrinter
                         else YAMLPrinter 0))
                  (runner s)) s)
  /\ (forall err s', initializeResourcePrinter w s = Normal (Some err) s' -> s' = s).
Proof.
  rewrite initializeResourcePrinter_eq.
  destruct (String.eqb_spec (outputFormat (runner s)) "yaml") as [Hy | Hy];
    [| destruct (String.eqb_spec (outputFormat (runner s)) "") as [He | He];
       [| destruct (String.eqb_spec (outputFormat (runner s)) "json") as [Hj | Hj]]];
    cbn [orb].
  - rewrite Hy. repeat split.
    + intros _. now left.
    + intros _. eexists. reflexivity.
    + intros s' [= <-]. reflexivity.
    + intros err s' [=].
  - rewrite He. repeat split.
    + intros _. right. now left.
    + intros _. eexists. reflexivity.
    + intros s' [= <-]. reflexivity.
    + intros err s' [=].
  - rewrite Hj. repeat split.
    + intros _. right. now right.
    + intros _. eexists. reflexivity.
    + intros s' [= <-]. reflexivity.
    + intros err s' [=].
  - repeat split.
    + intros [s' [=]].
    + intros [H | [H | H]]; contradiction.
    + intros s' [=].
    + intros err s' [= _ <-]. reflexivity.
Qed.

(** *** Further properties: acquisition *)

Lemma acquire_file_eq (w : World) (s : State) (nf inf : string) (l0 : IngressList) :
  inf <> "" ->
  acquire nf inf l0 w s =
  match ConstructIngressesFromFile w l0 inf nf with
  | (_, Some err) =>
      Normal (inr (Errorf "failed to open input file: %w" [AError err]))
        (with_event (CallConstructIngressesFromFile inf nf) s)
  | (l, None) => Normal (inl l) (with_event (CallConstructIngressesFromFile inf nf) s)
  end.
Proof.
  intros Hinf. apply String.eqb_neq in Hinf.
  unfold acquire. unfold bind at 1. unfold ask at 1. rewrite Hinf. cbn [negb].
  unfold bind at 1. unfold record at 1.
  destruct (ConstructIngressesFromFile w l0 inf nf) as [l [e |]]; reflexivity.
Qed.

Lemma acquire_cluster_eq (w : World) (s : State) (nf : string) (l0 : IngressList) :
  acquire nf "" l0 w s =
  let s1 := with_event CallGetConfig s in
  match GetConfig w with
  | (_, Some err) =>
      Normal (inr (Errorf "failed to get client config: %w" [AError err])) s1
  | (conf, None) =>
      let s2 := with_event (CallClientNew conf) s1 in
      match clientNew w conf with
      | (_, Some err) =>
          Normal (inr (Errorf "failed to create client: %w" [AError err])) s2
      | (cl, None) =>
          let s3 :=
            with_event (CallConstructIngressesFromCluster (NewNamespacedClient cl nf)) s2 in
          match ConstructIngressesFromCluster w (NewNamespacedClient cl nf) l0 with
          | (_, Some err) =>
              Normal (inr (Errorf
                             "failed to get ingress resources from kubenetes cluster: %w"
                             [AError err])) s3
          | (l, None) => Normal (inl l) s3
          end
      end
  end.
Proof.
  unfold acquire. unfold bind at 1. unfold ask at 1. cbn [String.eqb negb].
  unfold bind at 1. unfold record at 1.
  destruct (GetConfig w) as [conf [e |]]; [reflexivity |].
  unfold bind at 1. unfold record at 1.
  destruct (clientNew w conf) as [cl [e |]]; [reflexivity |].
  cbv zeta. unfold bind at 1. unfold record at 1.
  destruct (ConstructIngressesFromCluster w _ l0) as [l [e |]]; reflexivity.
Qed.

Lemma getIngessList_acquire_eq (w : World) (s : State) (nf inf : string) :
  getIngessList nf inf w s =
  match acquire nf inf {| Items := [] |} w s with
  | Panic s1 => Panic s1
  | Normal (inr err) s1 => Normal (None, Some err) s1
  | Normal (inl l) s1 =>
      if (len (Items l) =? 0)%Z then
        if negb (nf =? "") then
          Normal (None, Some (Errorf "%s in %s namespace"
                                     [AString "No resources found"; AString nf])) s1
        else Normal (None, Some (Errorf "No resources found" [])) s1
      else Normal (Some l, None) s1
  end.
Proof.
  unfold getIngessList. unfold bind at 1.
  destruct (acquire nf inf _ w s) as [[l | e] s1 | s1]; try reflexivity.
  destruct (len (Items l) =? 0)%Z; [destruct (negb (nf =? "")) |]; reflexivity.
Qed.

Lemma len_zero_iff {A : Type} (l : list A) : (len l =? 0)%Z = true <-> l = [].
Proof.
  unfold len. rewrite Z.eqb_eq. destruct l; cbn [length]; split; intros H;
    try reflexivity; try discriminate; lia.
Qed.

(** What an acquisition does, whichever way it ends. *)
Lemma acquire_cases (w : World) (s : State) (nf inf : string) :
  exists r s' evs,
    acquire nf inf {| Items := [] |} w s = Normal r s'
    /\ s' = {| runner := runner s; trace := (trace s ++ evs)%list; stdout := stdout s |}
    /\ (inf <> "" -> evs = [CallConstructIngressesFromFile inf nf])
    /\ (inf = "" -> forallb isClusterAccess evs = true)
    /\ (forall l, r = inl l -> yields w nf inf l).
Proof.
  destruct (String.eqb_spec inf "") as [-> | Hinf].
  - rewrite acquire_cluster_eq. cbv zeta. unfold yields.
    destruct (GetConfig w) as [conf [e |]] eqn:Hconf.
    { eexists. eexists. exists [CallGetConfig]. split; [reflexivity |].
      split; [reflexivity |]. split; [intros H; now elim H |].
      split; [reflexivity | intros l [=]]. }
    destruct (clientNew w conf) as [cl [e |]] eqn:Hnew.
    { eexists. eexists. exists [CallGetConfig; CallClientNew conf].
      split; [reflexivity |]. split; [unfold with_event; cbn; now rewrite <- app_assoc |].
      split; [intros H; now elim H |]. split; [reflexivity | intros l [=]]. }
    destruct (ConstructIngressesFromCluster w _ _) as [l [e |]] eqn:Hlist.
    + eexists. eexists.
      exists [CallGetConfig; CallClientNew conf;
              CallConstructIngressesFromCluster (NewNamespacedClient cl nf)].
      split; [reflexivity |]. split; [unfold with_event; cbn; now rewrite <- !app_assoc |].
      split; [intros H; now elim H |]. split; [reflexivity | intros l' [=]].
    + eexists. eexists.
      exists [CallGetConfig; CallClientNew conf;
              CallConstructIngressesFromCluster (NewNamespacedClient cl nf)].
      split; [reflexivity |]. split; [unfold with_event; cbn; now rewrite <- !app_assoc |].
      split; [intros H; now elim H |]. split; [reflexivity |].
      intros l' [= <-]. right. split; [reflexivity |]. now exists conf, cl.
  - rewrite (acquire_file_eq w s nf inf _ Hinf). unfold yields.
    destruct (ConstructIngressesFromFile w _ inf nf) as [l [e |]] eqn:Hfile.
    + eexists. eexists. eexists. split; [reflexivity |]. split; [reflexivity |].
      split; [reflexivity |]. split; [intros H; now elim Hinf | intros l' [=]].
    + eexists. eexists. eexists. split; [reflexivity |]. split; [reflexivity |].
      split; [reflexivity |]. split; [intros H; now elim Hinf |].
      intros l' [= <-]. left. now split.
Qed.

(** What getIngessList does, whichever way it ends. *)
Lemma getIngessList_cases (w : World) (s : State) (nf inf : string) :
  exists r s' evs,
    getIngessList nf inf w s = Normal r s'
    /\ s' = {| runner := runner s; trace := (trace s ++ evs)%list; stdout := stdout s |}
    /\ (inf <> "" -> evs = [CallConstructIngressesFromFile inf nf])
    /\ (inf = "" -> forallb isClusterAccess evs = true)
    /\ ((exists err, r = (None, Some err))
        \/ (exists l, r = (Some l, None) /\ Items l <> [] /\ yields w nf inf l)).
Proof.
  destruct (acquire_cases w s nf inf) as (r & s' & evs & Hacq & Hs' & Hfile & Hcl & Hy).
  rewrite getIngessList_acquire_eq, Hacq.
  destruct r as [l | e].
  - destruct (len (Items l) =? 0)%Z eqn:Hlen.
    + destruct (negb (nf =? "")); eexists; exists s', evs;
        (split; [reflexivity |]); repeat split; auto; left; eexists; reflexivity.
    + eexists. exists s', evs. split; [reflexivity |]. repeat split; auto.
      right. exists l. split; [reflexivity |]. split; [| now apply Hy].
      intros Hnil. apply len_zero_iff in Hnil. congruence.
  - eexists. exists s', evs. split; [reflexivity |]. repeat split; auto.
    left. eexists. reflexivity.
Qed.

(** X6. getIngessList never returns a list together with an error, nor
    neither of them: it returns either an error and a nil list, or no
    error and the list the acquisition produced, which is then not empty.
    It leaves the runner and standard output as they were. *)
Theorem getIngessList_returns_list_or_error (w : World) (s : State) (nf inf : string) :
  exists s',
    runner s' = runner s
    /\ stdout s' = stdout s
    /\ ((exists err, getIngessList nf inf w s = Normal (None, Some err) s')
        \/ (exists l,
              getIngessList nf inf w s = Normal (Some l, None) s'
              /\ Items l <> []
              /\ yields w nf inf l)).
Proof.
  destruct (getIngessList_cases w s nf inf) as (r & s' & evs & Hrun & Hs' & _ & _ & Hr).
  exists s'. split; [now rewrite Hs' |]. split; [now rewrite Hs' |].
  destruct Hr as [[err ->] | (l & -> & Hne & Hy)].
  - left. exists err. exact Hrun.
  - right. exists l. repeat split; assumption.
Qed.

(** X7. When the acquisition, from the file or from the cluster, succeeds
    with at least one ingress, getIngessList returns that list as it is,
    with no error. *)
Theorem nonempty_acquisition_is_returned
    (w : World) (s : State) (nf inf : string) (l : IngressList) :
  yields w nf inf l ->
  Items l <> [] ->
  exists s',
    getIngessList nf inf w s = Normal (Some l, None) s'
    /\ runner s' = runner s
    /\ stdout s' = stdout s.
Proof.
  intros Hy Hne.
  destruct (acquire_yields w s _ _ _ Hy) as [s1 Hacq].
  destruct (acquire_quiet _ _ _ _ _ _ _ Hacq) as (Hr & Ho & _).
  rewrite getIngessList_acquire_eq, Hacq.
  destruct (len (Items l) =? 0)%Z eqn:Hlen.
  - apply len_zero_iff in Hlen. contradiction.
  - exists s1. repeat split; assumption.
Qed.

(** X8. When an input file is given and reading it fails, getIngessList
    returns a nil list and an error that wraps the reader's error behind
    "failed to open input file: ", whatever the reader left in the list;
    the file read is its only external call. *)
Theorem unreadable_file_is_reported
    (w : World) (s : State) (nf inf : string) (l : IngressList) (err : error) :
  inf <> "" ->
  ConstructIngressesFromFile w {| Items := [] |} inf nf = (l, Some err) ->
  exists e,
    getIngessList nf inf w s
    = Normal (None, Some e) (with_event (CallConstructIngressesFromFile inf nf) s)
    /\ Error e = "failed to open input file: " ++ Error err
    /\ Unwrap e = Some err.
Proof.
  intros Hinf Hfile.
  rewrite getIngessList_acquire_eq, (acquire_file_eq w s nf inf _ Hinf), Hfile.
  eexists. split; [reflexivity |]. cbn. now rewrite append_nil_r.
Qed.

(** X9. On a cluster-backed acquisition, when config.GetConfig fails
    getIngessList returns its error behind "failed to get client config: "
    and stops there: no client is built and the cluster is not queried. *)
Theorem missing_config_stops_acquisition
    (w : World) (s : State) (nf : string) (conf : Config) (err : error) :
  GetConfig w = (conf, Some err) ->
  exists e,
    getIngessList nf "" w s = Normal (None, Some e) (with_event CallGetConfig s)
    /\ Error e = "failed to get client config: " ++ Error err
    /\ Unwrap e = Some err.
Proof.
  intros Hconf.
  rewrite getIngessList_acquire_eq, acquire_cluster_eq, Hconf.
  eexists. split; [reflexivity |]. cbn. now rewrite append_nil_r.
Qed.

(** X10. On a cluster-backed acquisition, when client.New fails
    getIngessList returns its error behind "failed to create client: " and
    the cluster is not queried. *)
Theorem client_failure_stops_acquisition
    (w : World) (s : State) (nf : string) (conf : Config) (cl : Client) (err : error) :
  GetConfig w = (conf, None) ->
  clientNew w conf = (cl, Some err) ->
  exists e,
    getIngessList nf "" w s
    = Normal (None, Some e) (with_event (CallClientNew conf) (with_event CallGetConfig s))
    /\ Error e = "failed to create client: " ++ Error err
    /\ Unwrap e = Some err.
Proof.
  intros Hconf Hnew.
  rewrite getIngessList_acquire_eq, acquire_cluster_eq, Hconf. cbv zeta. rewrite Hnew.
  eexists. split; [reflexivity |]. cbn. now rewrite append_nil_r.
Qed.

(** X11. On a cluster-backed acquisition the ingresses are listed through
    the client restricted to the namespace filter, after the configuration
    is loaded and the client built, in that order; when the listing fails
    getIngessList returns its error behind
    "failed to get ingress resources from kubenetes cluster: ". *)
Theorem cluster_listing_failure_is_reported
    (w : World) (s : State) (nf : string) (conf : Config) (cl : Client)
    (l : IngressList) (err : error) :
  GetConfig w = (conf, None) ->
  clientNew w conf = (cl, None) ->
  ConstructIngressesFromCluster w (NewNamespacedClient cl nf) {| Items := [] |}
  = (l, Some err) ->
  exists e s',
    getIngessList nf "" w s = Normal (None, Some e) s'
    /\ trace s' =
       (trace s ++ [CallGetConfig; CallClientNew conf;
                    CallConstructIngressesFromCluster (NewNamespacedClient cl nf)])%list
    /\ Error e = "failed to get ingress resources from kubenetes cluster: " ++ Error err
    /\ Unwrap e = Some err.
Proof.
  intros Hconf Hnew Hlist.
  rewrite getIngessList_acquire_eq, acquire_cluster_eq, Hconf. cbv zeta.
  rewrite Hnew, Hlist.
  eexists. eexists. split; [reflexivity |].
  split; [unfold with_event; cbn; now rewrite <- !app_assoc |].
  cbn. now rewrite append_nil_r.
Qed.

(** *** Further properties: the whole run *)

Lemma initializeNamespaceFilter_returns (w : World) (s : State) :
  exists r s', initializeNamespaceFilter w s = Normal r s'.
Proof.
  rewrite initializeNamespaceFilter_eq.
  destruct (allNamespaces (runner s)); [eexists; eexists; reflexivity |].
  destruct (namespace (runner s) =? ""); [| eexists; eexists; reflexivity].
  cbv zeta. destruct (_ && _); eexists; eexists; reflexivity.
Qed.

(** The five ways a run ends. *)
Lemma run_cases (w : World) (s : State) :
  (exists e0,
      initializeResourcePrinter w s = Normal (Some e0) s
      /\ PrintGatewaysAndHTTPRoutes w s
         = Normal (Some (Errorf "failed to initialize resrouce printer: %w" [AError e0])) s)
  \/ (exists s1 s2 e0,
        initializeResourcePrinter w s = Normal None s1
        /\ initializeNamespaceFilter w s1 = Normal (Some e0) s2
        /\ PrintGatewaysAndHTTPRoutes w s
           = Normal (Some (Errorf "failed to initialize namespace filter: %w" [AError e0]))
               s2)
  \/ (exists s1 s2 s3 e0,
        initializeResourcePrinter w s = Normal None s1
        /\ initializeNamespaceFilter w s1 = Normal None s2
        /\ getIngessList (namespaceFilter (runner s2)) (inputFile (runner s2)) w s2
           = Normal (None, Some e0) s3
        /\ PrintGatewaysAndHTTPRoutes w s
           = Normal (Some (Errorf "failed to get ingresses from source: %w" [AError e0]))
               s3)
  \/ (exists s3 l httpRoutes gateways errList,
        reachesConversion w s s3 l
        /\ Items l <> []
        /\ Ingresses2GatewaysAndHTTPRoutes (Items l) = (httpRoutes, gateways, errList)
        /\ errList <> []
        /\ PrintGatewaysAndHTTPRoutes w s
           = Normal (Some (aggregate errList))
               (with_event (CallIngresses2GatewaysAndHTTPRoutes (Items l)) s3))
  \/ (exists s3 l httpRoutes gateways p,
        reachesConversion w s s3 l
        /\ Items l <> []
        /\ Ingresses2GatewaysAndHTTPRoutes (Items l) = (httpRoutes, gateways, [])
        /\ resourcePrinter (runner s3) = Some p
        /\ PrintGatewaysAndHTTPRoutes w s
           = Normal None
               (rendered p (renderOrder httpRoutes gateways)
                  (with_event (CallIngresses2GatewaysAndHTTPRoutes (Items l)) s3))).
Proof.
  rewrite PrintGatewaysAndHTTPRoutes_eq.
  destruct (initializeResourcePrinter w s) as [[e0 |] s1 | s1] eqn:H1.
  - left. exists e0.
    assert (s1 = s) as ->; [| split; reflexivity].
    rewrite initializeResourcePrinter_eq in H1.
    destruct (_ || _); [discriminate |]. destruct (_ =? "json"); [discriminate |].
    now injection H1.
  - right.
    destruct (initializeNamespaceFilter_returns w s1) as (r2 & s2 & H2). rewrite H2.
    destruct r2 as [e0 |]; [left; exists s1, s2, e0; repeat split; assumption |].
    right.
    destruct (getIngessList_cases w s2 (namespaceFilter (runner s2)) (inputFile (runner s2)))
      as (r3 & s3 & evs & H3 & Hs3 & _ & _ & Hr3).
    rewrite H3.
    destruct Hr3 as [[e0 ->] | (l & -> & Hne & _)];
      [left; exists s1, s2, s3, e0; repeat split; assumption |].
    right.
    assert (Hreach : reachesConversion w s s3 l) by (exists s1, s2; repeat split; assumption).
    destruct (reachesConversion_quiet _ _ _ _ Hreach) as (p & Hp & _ & _).
    cbv zeta.
    destruct (Ingresses2GatewaysAndHTTPRoutes (Items l))
      as [[httpRoutes gateways] errList] eqn:Hconv.
    destruct errList as [| err errList].
    + right. exists s3, l, httpRoutes, gateways, p.
      split; [exact Hreach |]. split; [exact Hne |]. split; [exact Hconv |].
      split; [exact Hp |].
      change (len (@nil error) >? 0)%Z with false. cbv iota.
      match goal with
      | |- context [outputResult _ _ w ?s4] =>
          rewrite (outputResult_eq w s4 p httpRoutes gateways Hp)
      end.
      reflexivity.
    + left. exists s3, l, httpRoutes, gateways, (err :: errList).
      split; [exact Hreach |]. split; [exact Hne |]. split; [exact Hconv |].
      split; [discriminate |].
      assert (Hlen : (len (err :: errList) >? 0)%Z = true).
      { unfold len. cbn [length]. apply Z.gtb_lt. lia. }
      now rewrite Hlen.
  - exfalso. rewrite initializeResourcePrinter_eq in H1.
    destruct (_ || _); [discriminate |]. destruct (_ =? "json"); discriminate.
Qed.

(** X12. PrintGatewaysAndHTTPRoutes always returns: it never calls PrintObj
    on a nil printer and never reads the items of a nil list. *)
Theorem run_never_panics (w : World) (s : State) :
  exists r s', PrintGatewaysAndHTTPRoutes w s = Normal r s'.
Proof.
  destruct (run_cases w s)
    as [(e0 & _ & H) | [(s1 & s2 & e0 & _ & _ & H) | [(s1 & s2 & s3 & e0 & _ & _ & _ & H)
       | [(s3 & l & hr & gw & el & _ & _ & _ & _ & H)
         | (s3 & l & hr & gw & p & _ & _ & _ & _ & H)]]]];
    rewrite H; eexists; eexists; reflexivity.
Qed.

(** X13. A run that returns an error, from whichever stage, has written
    nothing to standard output and has not called PrintObj. *)
Theorem failed_run_writes_nothing (w : World) (s s' : State) (e : error) :
  PrintGatewaysAndHTTPRoutes w s = Normal (Some e) s' ->
  stdout s' = stdout s /\ printed (trace s') = printed (trace s).
Proof.
  intros Hrun.
  destruct (run_cases w s)
    as [(e0 & _ & H) | [(s1 & s2 & e0 & H1 & H2 & H)
       | [(s1 & s2 & s3 & e0 & H1 & H2 & H3 & H)
       | [(s3 & l & hr & gw & el & Hreach & _ & _ & _ & H)
         | (s3 & l & hr & gw & p & _ & _ & _ & _ & H)]]]];
    rewrite H in Hrun; try discriminate; injection Hrun as _ <-.
  - split; reflexivity.
  - destruct (initializeResourcePrinter_ok _ _ _ H1) as [p ->].
    destruct (initializeNamespaceFilter_quiet _ _ _ _ H2) as (_ & Ho & Ht).
    split; assumption.
  - destruct (initializeResourcePrinter_ok _ _ _ H1) as [p ->].
    destruct (initializeNamespaceFilter_quiet _ _ _ _ H2) as (_ & Ho2 & Ht2).
    destruct (getIngessList_quiet _ _ _ _ _ _ H3) as (_ & Ho3 & Ht3).
    split; [now rewrite Ho3 | now rewrite Ht3].
  - destruct (reachesConversion_quiet _ _ _ _ Hreach) as (p & _ & Ho & Ht).
    split; [exact Ho |]. cbn. now rewrite printed_app, app_nil_r.
Qed.

(** X14. A run that returns nil has passed every stage: it fetched a list
    that is not empty, the converter returned no error for it, and the run
    ends in the state in which every converted gateway and then every
    converted route has gone through the printer installed at the start. *)
Theorem successful_run_rendered_everything (w : World) (s s' : State) :
  PrintGatewaysAndHTTPRoutes w s = Normal None s' ->
  exists s3 l httpRoutes gateways p,
    reachesConversion w s s3 l
    /\ Items l <> []
    /\ Ingresses2GatewaysAndHTTPRoutes (Items l) = (httpRoutes, gateways, [])
    /\ resourcePrinter (runner s3) = Some p
    /\ s' = rendered p (map GatewayObject gateways ++ map HTTPRouteObject httpRoutes)%list
              (with_event (CallIngresses2GatewaysAndHTTPRoutes (Items l)) s3).
Proof.
  intros Hrun.
  destruct (run_cases w s)
    as [(e0 & _ & H) | [(s1 & s2 & e0 & _ & _ & H) | [(s1 & s2 & s3 & e0 & _ & _ & _ & H)
       | [(s3 & l & hr & gw & el & _ & _ & _ & _ & H)
         | (s3 & l & hr & gw & p & Hreach & Hne & Hconv & Hp & H)]]]];
    rewrite H in Hrun; try discriminate.
  injection Hrun as <-.
  exists s3, l, hr, gw, p. repeat split; assumption.
Qed.

Lemma initializeNamespaceFilter_trace (w : World) (s s' : State) (r : option error) :
  initializeNamespaceFilter w s = Normal r s' ->
  inputFile (runner s') = inputFile (runner s)
  /\ exists lookup,
       trace s' = (trace s ++ lookup)%list
       /\ (lookup = [] \/ lookup = [CallNamespace])
       /\ (allNamespaces (runner s) = true \/ namespace (runner s) <> "" -> lookup = []).
Proof.
  rewrite initializeNamespaceFilter_eq.
  destruct (allNamespaces (runner s)).
  { intros [= <- <-]. split; [reflexivity |]. exists []. cbn. rewrite app_nil_r. auto. }
  destruct (String.eqb_spec (namespace (runner s)) "") as [Hns | Hns].
  - cbv zeta. destruct (_ && _); intros [= <- <-]; (split; [reflexivity |]);
      exists [CallNamespace]; (split; [reflexivity |]); (split; [now right |]);
      intros [H | H]; [discriminate | contradiction | discriminate | contradiction].
  - intros [= <- <-]. split; [reflexivity |]. exists []. cbn. rewrite app_nil_r. auto.
Qed.

Lemma cluster_access_is_fetch (evs : list Event) :
  forallb isClusterAccess evs = true -> forallb isFetch evs = true.
Proof.
  induction evs as [| e evs IH]; [reflexivity |].
  cbn. intros H. apply andb_true_iff in H as [He Hevs].
  rewrite (IH Hevs), andb_true_r. destruct e; (reflexivity || discriminate).
Qed.

(** The calls of a run: the lookup, the fetch, then the conversion and the
    printing. *)
Lemma run_trace (w : World) (s : State) :
  exists r s' lookup fetch tail,
    PrintGatewaysAndHTTPRoutes w s = Normal r s'
    /\ trace s' = (trace s ++ lookup ++ fetch ++ tail)%list
    /\ ((lookup = [] \/ lookup = [CallNamespace])
        /\ (allNamespaces (runner s) = true \/ namespace (runner s) <> "" -> lookup = []))
    /\ (inputFile (runner s) <> "" ->
        fetch = [] \/ exists nf, fetch = [CallConstructIngressesFromFile (inputFile (runner s)) nf])
    /\ (inputFile (runner s) = "" -> forallb isClusterAccess fetch = true)
    /\ (tail = []
        \/ exists items objs,
             tail = CallIngresses2GatewaysAndHTTPRoutes items :: map CallPrintObj objs).
Proof.
  assert (Hstages : forall s1 s2 r2,
            initializeResourcePrinter w s = Normal None s1 ->
            initializeNamespaceFilter w s1 = Normal r2 s2 ->
            inputFile (runner s2) = inputFile (runner s)
            /\ exists lookup,
                 trace s2 = (trace s ++ lookup)%list
                 /\ ((lookup = [] \/ lookup = [CallNamespace])
                     /\ (allNamespaces (runner s) = true \/ namespace (runner s) <> "" ->
                         lookup = []))).
  { intros s1 s2 r2 H1 H2.
    destruct (initializeResourcePrinter_ok _ _ _ H1) as [p ->].
    destruct (initializeNamespaceFilter_trace _ _ _ _ H2) as (Hin & lookup & Ht & Hl & Hfl).
    split; [exact Hin |]. exists lookup. repeat split; assumption. }
  assert (Hfetch : forall s2 s3 r3,
            inputFile (runner s2) = inputFile (runner s) ->
            getIngessList (namespaceFilter (runner s2)) (inputFile (runner s2)) w s2
            = Normal r3 s3 ->
            exists fetch,
              trace s3 = (trace s2 ++ fetch)%list
              /\ (inputFile (runner s) <> "" ->
                  fetch = []
                  \/ exists nf,
                       fetch = [CallConstructIngressesFromFile (inputFile (runner s)) nf])
              /\ (inputFile (runner s) = "" -> forallb isClusterAccess fetch = true)).
  { intros s2 s3 r3 Hin H3.
    destruct (getIngessList_cases w s2 (namespaceFilter (runner s2)) (inputFile (runner s2)))
      as (r & s3' & evs & H3' & Hs3 & Hfile & Hcl & _).
    rewrite H3 in H3'. injection H3' as _ <-. subst s3.
    exists evs. rewrite Hin in Hfile, Hcl. split; [reflexivity |].
    split; [| exact Hcl].
    intros Hne. right. eexists. exact (Hfile Hne). }
  destruct (run_cases w s)
    as [(e0 & _ & H) | [(s1 & s2 & e0 & H1 & H2 & H)
       | [(s1 & s2 & s3 & e0 & H1 & H2 & H3 & H)
       | [(s3 & l & hr & gw & el & (s1 & s2 & H1 & H2 & H3) & _ & _ & _ & H)
         | (s3 & l & hr & gw & p & (s1 & s2 & H1 & H2 & H3) & _ & _ & _ & H)]]]];
    rewrite H.
  - eexists. eexists. exists [], [], []. split; [reflexivity |].
    cbn. rewrite app_nil_r. repeat split; auto.
  - destruct (Hstages _ _ _ H1 H2) as (_ & lookup & Ht & Hl & Hfl).
    eexists. eexists. exists lookup, [], []. split; [reflexivity |].
    rewrite Ht, app_nil_r. repeat split; auto.
  - destruct (Hstages _ _ _ H1 H2) as (Hin & lookup & Ht & Hl & Hfl).
    destruct (Hfetch _ _ _ Hin H3) as (fetch & Ht3 & Hf & Hc).
    eexists. eexists. exists lookup, fetch, []. split; [reflexivity |].
    rewrite Ht3, Ht, app_nil_r, <- app_assoc. repeat split; auto.
  - destruct (Hstages _ _ _ H1 H2) as (Hin & lookup & Ht & Hl & Hfl).
    destruct (Hfetch _ _ _ Hin H3) as (fetch & Ht3 & Hf & Hc).
    eexists. eexists.
    exists lookup, fetch, [CallIngresses2GatewaysAndHTTPRoutes (Items l)].
    split; [reflexivity |].
    unfold with_event. cbn [trace]. rewrite Ht3, Ht, <- !app_assoc.
    repeat split; auto. right. exists (Items l), []. reflexivity.
  - destruct (Hstages _ _ _ H1 H2) as (Hin & lookup & Ht & Hl & Hfl).
    destruct (Hfetch _ _ _ Hin H3) as (fetch & Ht3 & Hf & Hc).
    eexists. eexists.
    exists lookup, fetch,
      (CallIngresses2GatewaysAndHTTPRoutes (Items l)
       :: map CallPrintObj (renderOrder hr gw)).
    split; [reflexivity |].
    unfold rendered, with_event. cbn [trace]. rewrite Ht3, Ht, <- !app_assoc.
    repeat split; auto. right. exists (Items l), (renderOrder hr gw). reflexivity.
Qed.

Lemma prints_are_no_cluster_access (objs : list Object) :
  existsb isClusterAccess (map CallPrintObj objs) = false.
Proof. induction objs as [| o objs IH]; [reflexivity | exact IH]. Qed.

Lemma prints_are_no_file_read (objs : list Object) :
  existsb isFileRead (map CallPrintObj objs) = false.
Proof. induction objs as [| o objs IH]; [reflexivity | exact IH]. Qed.

Lemma existsb_app_false {A : Type} (f : A -> bool) (a b : list A) :
  existsb f a = false -> existsb f b = false -> existsb f (a ++ b) = false.
Proof. intros Ha Hb. now rewrite existsb_app, Ha, Hb. Qed.

(** X15. The external calls of a run come in the order of its stages: at
    most one lookup of the ambient namespace, then file reads or cluster
    accesses, then at most one call of the converter followed only by
    calls of PrintObj.  A run calls the converter at most once and never
    fetches after converting. *)
Theorem run_calls_follow_the_stages (w : World) (s : State) :
  exists r s' lookup fetch tail,
    PrintGatewaysAndHTTPRoutes w s = Normal r s'
    /\ trace s' = (trace s ++ lookup ++ fetch ++ tail)%list
    /\ (lookup = [] \/ lookup = [CallNamespace])
    /\ forallb isFetch fetch = true
    /\ (tail = []
        \/ exists items objs,
             tail = CallIngresses2GatewaysAndHTTPRoutes items :: map CallPrintObj objs).
Proof.
  destruct (run_trace w s) as (r & s' & lookup & fetch & tail & Hrun & Ht & [Hl _] & Hf & Hc & Htl).
  exists r, s', lookup, fetch, tail.
  split; [exact Hrun |]. split; [exact Ht |]. split; [exact Hl |]. split; [| exact Htl].
  destruct (String.eqb_spec (inputFile (runner s)) "") as [He | Hne].
  - now apply cluster_access_is_fetch, Hc.
  - destruct (Hf Hne) as [-> | [nf ->]]; reflexivity.
Qed.

(** X16. A file-backed run makes no cluster access: it never loads the
    cluster configuration, builds a client or lists from the cluster, and
    it reads the file at most once, the file named by the input_file
    flag. *)
Theorem file_run_never_touches_the_cluster (w : World) (s : State) :
  inputFile (runner s) <> "" ->
  exists r s' evs,
    PrintGatewaysAndHTTPRoutes w s = Normal r s'
    /\ trace s' = (trace s ++ evs)%list
    /\ existsb isClusterAccess evs = false
    /\ forall path nf, In (CallConstructIngressesFromFile path nf) evs ->
         path = inputFile (runner s).
Proof.
  intros Hne.
  destruct (run_trace w s) as (r & s' & lookup & fetch & tail & Hrun & Ht & [Hl _] & Hf & _ & Htl).
  exists r, s', (lookup ++ fetch ++ tail)%list.
  split; [exact Hrun |]. split; [exact Ht |].
  assert (Htail : existsb isClusterAccess tail = false
                  /\ forall path nf, ~ In (CallConstructIngressesFromFile path nf) tail).
  { destruct Htl as [-> | (items & objs & ->)]; [split; [reflexivity | intros ? ? []] |].
    split.
    - cbn. apply prints_are_no_cluster_access.
    - intros path nf [H | H]; [discriminate |].
      apply in_map_iff in H as (o & Ho & _). discriminate. }
  destruct Htail as [Htc Htf].
  split.
  - apply existsb_app_false; [destruct Hl as [-> | ->]; reflexivity |].
    apply existsb_app_false; [| exact Htc].
    destruct (Hf Hne) as [-> | [nf ->]]; reflexivity.
  - intros path nf Hin.
    apply in_app_or in Hin as [Hin | Hin].
    { destruct Hl as [-> | ->]; [destruct Hin |].
      destruct Hin as [Hin | []]; discriminate. }
    apply in_app_or in Hin as [Hin | Hin]; [| now elim (Htf path nf)].
    destruct (Hf Hne) as [-> | [nf' ->]]; [destruct Hin |].
    destruct Hin as [[= <- _] | []]. reflexivity.
Qed.

(** X17. A cluster-backed run never reads a manifest file. *)
Theorem cluster_run_never_reads_a_file (w : World) (s : State) :
  inputFile (runner s) = "" ->
  exists r s' evs,
    PrintGatewaysAndHTTPRoutes w s = Normal r s'
    /\ trace s' = (trace s ++ evs)%list
    /\ existsb isFileRead evs = false.
Proof.
  intros He.
  destruct (run_trace w s) as (r & s' & lookup & fetch & tail & Hrun & Ht & [Hl _] & _ & Hc & Htl).
  exists r, s', (lookup ++ fetch ++ tail)%list.
  split; [exact Hrun |]. split; [exact Ht |].
  apply existsb_app_false; [destruct Hl as [-> | ->]; reflexivity |].
  apply existsb_app_false.
  - specialize (Hc He). clear -Hc.
    induction fetch as [| e fetch IH]; [reflexivity |].
    cbn in Hc. apply andb_true_iff in Hc as [He Hrest].
    cbn. rewrite (IH Hrest), orb_false_r. destruct e; (reflexivity || discriminate).
  - destruct Htl as [-> | (items & objs & ->)]; [reflexivity |].
    cbn. apply prints_are_no_file_read.
Qed.

(** X18. Every error a run returns names the stage that failed: it wraps
    the error of printer selection, of namespace resolution or of the
    fetch behind the context of that stage, or it is the aggregate of a
    non-empty list of conversion errors. *)
Theorem run_error_names_its_stage (w : World) (s s' : State) (e : error) :
  PrintGatewaysAndHTTPRoutes w s = Normal (Some e) s' ->
  (exists e0,
      initializeResourcePrinter w s = Normal (Some e0) s'
      /\ Error e = "failed to initialize resrouce printer: " ++ Error e0
      /\ Unwrap e = Some e0)
  \/ (exists s1 e0,
        initializeResourcePrinter w s = Normal None s1
        /\ initializeNamespaceFilter w s1 = Normal (Some e0) s'
        /\ Error e = "failed to initialize namespace filter: " ++ Error e0
        /\ Unwrap e = Some e0)
  \/ (exists s1 s2 e0,
        initializeResourcePrinter w s = Normal None s1
        /\ initializeNamespaceFilter w s1 = Normal None s2
        /\ getIngessList (namespaceFilter (runner s2)) (inputFile (runner s2)) w s2
           = Normal (None, Some e0) s'
        /\ Error e = "failed to get ingresses from source: " ++ Error e0
        /\ Unwrap e = Some e0)
  \/ (exists s3 l httpRoutes gateways errList,
        reachesConversion w s s3 l
        /\ Ingresses2GatewaysAndHTTPRoutes (Items l) = (httpRoutes, gateways, errList)
        /\ errList <> []
        /\ e = aggregate errList).
Proof.
  intros Hrun.
  destruct (run_cases w s)
    as [(e0 & H1 & H) | [(s1 & s2 & e0 & H1 & H2 & H)
       | [(s1 & s2 & s3 & e0 & H1 & H2 & H3 & H)
       | [(s3 & l & hr & gw & el & Hreach & _ & Hconv & Hne & H)
         | (s3 & l & hr & gw & p & _ & _ & _ & _ & H)]]]];
    rewrite H in Hrun; try discriminate; injection Hrun as <- <-.
  - left. exists e0. split; [exact H1 |]. cbn. now rewrite append_nil_r.
  - right. left. exists s1, e0. split; [exact H1 |]. split; [exact H2 |].
    cbn. now rewrite append_nil_r.
  - right. right. left. exists s1, s2, e0.
    split; [exact H1 |]. split; [exact H2 |]. split; [exact H3 |].
    cbn. now rewrite append_nil_r.
  - right. right. right. exists s3, l, hr, gw, el. repeat split; assumption.
Qed.

(** *** Further properties: the aggregated conversion error *)

Lemma newlines_LF (n : nat) : newlines n ++ LF = LF ++ newlines n.
Proof.
  induction n as [| n IH]; [reflexivity |].
  cbn [newlines]. now rewrite append_assoc, IH.
Qed.

Lemma fold_errors_message (errList : list error) :
  forall errMsg : error,
    Error (fold_left
             (fun errMsg err => Errorf (LF ++ "%w # %s") [AError errMsg; AError err])
             errList errMsg)
    = newlines (length errList) ++ Error errMsg ++ listed errList.
Proof.
  induction errList as [| x errList IH]; intros errMsg.
  - cbn. now rewrite append_nil_r.
  - cbn [fold_left length newlines listed].
    rewrite IH, Error_wrap_step, !append_assoc.
    rewrite <- (append_assoc (newlines _) LF), newlines_LF.
    now rewrite !append_assoc.
Qed.

Lemma unwrapN_last (n : nat) :
  forall e e1 e2 : error,
    unwrapN n e = Some e1 -> Unwrap e1 = Some e2 -> unwrapN (S n) e = Some e2.
Proof.
  induction n as [| n IH]; intros e e1 e2 Hn H1.
  - cbn in Hn. injection Hn as ->. cbn. now rewrite H1.
  - cbn [unwrapN] in Hn |- *.
    destruct (Unwrap e) as [e' |]; [| discriminate].
    exact (IH e' e1 e2 Hn H1).
Qed.

Lemma fold_errors_unwrap (errList : list error) :
  forall errMsg : error,
    unwrapN (length errList)
      (fold_left
         (fun errMsg err => Errorf (LF ++ "%w # %s") [AError errMsg; AError err])
         errList errMsg)
    = Some errMsg.
Proof.
  induction errList as [| x errList IH]; intros errMsg; [reflexivity |].
  cbn [fold_left length].
  eapply unwrapN_last; [apply IH | reflexivity].
Qed.

(** X19. The message of the error a run returns for the conversion errors
    [e1 .. en] is n + 1 line feeds, the line "# Encountered n errors", and
    then the messages of e1 .. en in the order of the list, each behind
    " # ". *)
Theorem aggregated_message_layout
    (w : World) (s s3 : State) (l : IngressList)
    (httpRoutes : list HTTPRoute) (gateways : list Gateway) (errList : list error) :
  reachesConversion w s s3 l ->
  Ingresses2GatewaysAndHTTPRoutes (Items l) = (httpRoutes, gateways, errList) ->
  errList <> [] ->
  exists e s',
    PrintGatewaysAndHTTPRoutes w s = Normal (Some e) s'
    /\ Error e =
       newlines (S (length errList))
       ++ "# Encountered " ++ Itoa (len errList) ++ " errors"
       ++ listed errList.
Proof.
  intros (s1 & s2 & H1 & H2 & H3) Hconv Hne.
  rewrite PrintGatewaysAndHTTPRoutes_eq, H1, H2, H3. cbv zeta. rewrite Hconv.
  assert (Hlen : (len errList >? 0)%Z = true).
  { destruct errList as [| x errList]; [now elim Hne |].
    unfold len. cbn [length]. apply Z.gtb_lt. lia. }
  rewrite Hlen. eexists. eexists. split; [reflexivity |].
  unfold aggregate. rewrite fold_errors_message.
  change (Error (Errorf (LF ++ "# Encountered %d errors") [AInt (len errList)]))
    with (LF ++ "# Encountered " ++ Itoa (len errList) ++ " errors").
  cbn [newlines]. rewrite !append_assoc.
  rewrite <- (append_assoc (newlines _) LF), newlines_LF.
  now rewrite !append_assoc.
Qed.

(** X20. The error returned for n conversion errors is a chain of n
    wrappers around the error of the count line: unwrapping it n times
    gives that error, which wraps nothing.  The conversion errors
    themselves are in the message only, not in the chain. *)
Theorem aggregated_error_unwraps_to_the_count_line
    (w : World) (s s3 : State) (l : IngressList)
    (httpRoutes : list HTTPRoute) (gateways : list Gateway) (errList : list error) :
  reachesConversion w s s3 l ->
  Ingresses2GatewaysAndHTTPRoutes (Items l) = (httpRoutes, gateways, errList) ->
  errList <> [] ->
  exists e s',
    PrintGatewaysAndHTTPRoutes w s = Normal (Some e) s'
    /\ unwrapN (length errList) e
       = Some (errorString (LF ++ "# Encountered " ++ Itoa (len errList) ++ " errors"))
    /\ unwrapN (S (length errList)) e = None.
Proof.
  intros (s1 & s2 & H1 & H2 & H3) Hconv Hne.
  rewrite PrintGatewaysAndHTTPRoutes_eq, H1, H2, H3. cbv zeta. rewrite Hconv.
  assert (Hlen : (len errList >? 0)%Z = true).
  { destruct errList as [| x errList]; [now elim Hne |].
    unfold len. cbn [length]. apply Z.gtb_lt. lia. }
  rewrite Hlen. eexists. eexists. split; [reflexivity |].
  unfold aggregate.
  set (header := Errorf (LF ++ "# Encountered %d errors") [AInt (len errList)]).
  assert (Hn : unwrapN (length errList)
                 (fold_left
                    (fun errMsg err =>
                       Errorf (LF ++ "%w # %s") [AError errMsg; AError err])
                    errList header) = Some header) by apply fold_errors_unwrap.
  split; [exact Hn |].
  clear -Hn. revert Hn. generalize (fold_left
                    (fun errMsg err =>
                       Errorf (LF ++ "%w # %s") [AError errMsg; AError err])
                    errList header).
  induction (length errList) as [| n IH]; intros e Hn.
  - cbn in Hn. injection Hn as ->. reflexivity.
  - cbn [unwrapN] in Hn |- *. destruct (Unwrap e) as [e' |]; [| reflexivity].
    exact (IH e' Hn).
Qed.

(** *** Further properties: rendering *)

(** X21. Without a printer, outputResult returns without effect when there
    is nothing to print, and panics at the first record otherwise, before
    anything is written. *)
Theorem outputResult_without_printer
    (w : World) (s : State) (httpRoutes : list HTTPRoute) (gateways : list Gateway) :
  resourcePrinter (runner s) = None ->
  outputResult httpRoutes gateways w s
  = match gateways, httpRoutes with
    | [], [] => Normal tt s
    | _, _ => Panic s
    end.
Proof.
  intros Hnil. unfold outputResult. unfold bind at 1.
  destruct gateways as [| g gateways].
  - cbn [forRange]. unfold ret at 1.
    destruct httpRoutes as [| r httpRoutes]; [reflexivity |].
    cbn [forRange]. unfold bind at 1. unfold bind at 1. unfold printObj.
    unfold bind at 1. unfold getRunner at 1. now rewrite Hnil.
  - cbn [forRange]. unfold bind at 1. unfold bind at 1. unfold printObj.
    unfold bind at 1. unfold getRunner at 1. now rewrite Hnil.
Qed.

Lemma forRange_app {A : Type} (a b : list A) (body : A -> M unit) (w : World) :
  forall s : State,
    forRange (a ++ b) body w s = bind (forRange a body) (fun _ => forRange b body) w s.
Proof.
  induction a as [| x a IH]; intros s; [reflexivity |].
  cbn [forRange app]. unfold bind.
  destruct (body x w s) as [[] s1 | s1]; [| reflexivity].
  rewrite IH. reflexivity.
Qed.

(** X22. Records can be printed in batches: printing the gateways in two
    calls of outputResult, the routes going with the second, or the routes
    in two calls, the gateways going with the first, ends in the same
    outcome as one call, whatever the printer and whatever PrintObj
    returns. *)
Theorem outputResult_in_batches
    (w : World) (s : State) (r1 r2 : list HTTPRoute) (g1 g2 : list Gateway) :
  outputResult r1 (g1 ++ g2) w s
  = bind (outputResult [] g1) (fun _ => outputResult r1 g2) w s
  /\ outputResult (r1 ++ r2) g1 w s
     = bind (outputResult r1 g1) (fun _ => outputResult r2 []) w s.
Proof.
  unfold outputResult.
  set (printGateway := fun g : Gateway => _).
  set (printRoute := fun r : HTTPRoute => _).
  split.
  - unfold bind at 1. rewrite forRange_app. unfold bind. cbn [forRange]. unfold ret.
    destruct (forRange g1 printGateway w s) as [[] s1 | s1]; reflexivity.
  - unfold bind. cbn [forRange]. unfold ret.
    destruct (forRange g1 printGateway w s) as [[] s1 | s1]; [| reflexivity].
    rewrite forRange_app. unfold bind.
    destruct (forRange r1 printRoute w s1) as [[] s2 | s2]; reflexivity.
Qed.

(** X23. With --all-namespaces or with a namespace given, a run never looks
    up the namespace of the current context, whatever else it does. *)
Theorem scope_flags_bypass_the_kubeconfig (w : World) (s : State) :
  allNamespaces (runner s) = true \/ namespace (runner s) <> "" ->
  exists r s' evs,
    PrintGatewaysAndHTTPRoutes w s = Normal r s'
    /\ trace s' = (trace s ++ evs)%list
    /\ ~ In CallNamespace evs.
Proof.
  intros Hflags.
  destruct (run_trace w s)
    as (r & s' & lookup & fetch & tail & Hrun & Ht & [_ Hl] & Hf & Hc & Htl).
  rewrite (Hl Hflags) in Ht. cbn [app] in Ht.
  exists r, s', (fetch ++ tail)%list.
  split; [exact Hrun |]. split; [exact Ht |].
  intros Hin. apply in_app_or in Hin as [Hin | Hin].
  - destruct (String.eqb_spec (inputFile (runner s)) "") as [He | Hne].
    + specialize (Hc He). rewrite forallb_forall in Hc.
      specialize (Hc _ Hin). discriminate.
    + destruct (Hf Hne) as [-> | [nf ->]]; [destruct Hin |].
      destruct Hin as [H | []]. discriminate.
  - destruct Htl as [-> | (items & objs & ->)]; [destruct Hin |].
    destruct Hin as [H | H]; [discriminate |].
    apply in_map_iff in H as (o & Ho & _). discriminate.
Qed.

Lemma getIngessList_cluster_trace
    (w : World) (s : State) (nf : string) (conf : Config) (cl : Client) :
  GetConfig w = (conf, None) ->
  clientNew w conf = (cl, None) ->
  exists r s',
    getIngessList nf "" w s = Normal r s'
    /\ trace s' =
       (trace s ++ [CallGetConfig; CallClientNew conf;
                    CallConstructIngressesFromCluster (NewNamespacedClient cl nf)])%list.
Proof.
  intros Hconf Hnew.
  rewrite getIngessList_acquire_eq, acquire_cluster_eq, Hconf. cbv zeta. rewrite Hnew.
  assert (Ht : forall s0,
            trace (with_event
                     (CallConstructIngressesFromCluster (NewNamespacedClient cl nf))
                     (with_event (CallClientNew conf) (with_event CallGetConfig s0)))
            = (trace s0 ++ [CallGetConfig; CallClientNew conf;
                            CallConstructIngressesFromCluster
                              (NewNamespacedClient cl nf)])%list).
  { intros s0. unfold with_event. cbn. now rewrite <- !app_assoc. }
  destruct (ConstructIngressesFromCluster w _ _) as [l [e |]].
  - eexists. eexists. split; [reflexivity | apply Ht].
  - destruct (len (Items l) =? 0)%Z; [destruct (negb (nf =? "")) |];
      eexists; eexists; (split; [reflexivity | apply Ht]).
Qed.

Lemma run_after_fetch (w : World) (s s1 s2 s3 : State)
    (r3 : option IngressList * option error) :
  initializeResourcePrinter w s = Normal None s1 ->
  initializeNamespaceFilter w s1 = Normal None s2 ->
  getIngessList (namespaceFilter (runner s2)) (inputFile (runner s2)) w s2 = Normal r3 s3 ->
  exists r s' tail,
    PrintGatewaysAndHTTPRoutes w s = Normal r s'
    /\ trace s' = (trace s3 ++ tail)%list.
Proof.
  intros H1 H2 H3.
  destruct (run_cases w s)
    as [(e0 & H1' & _) | [(s1' & s2' & e0 & H1' & H2' & _)
       | [(s1' & s2' & s3' & e0 & H1' & H2' & H3' & H)
       | [(s3' & l & hr & gw & el & (s1' & s2' & H1' & H2' & H3') & _ & _ & _ & H)
         | (s3' & l & hr & gw & p & (s1' & s2' & H1' & H2' & H3') & _ & _ & _ & H)]]]].
  - rewrite H1 in H1'. discriminate.
  - rewrite H1 in H1'. injection H1' as <-. rewrite H2 in H2'. discriminate.
  - rewrite H1 in H1'. injection H1' as <-. rewrite H2 in H2'. injection H2' as <-.
    rewrite H3 in H3'. injection H3' as _ <-.
    rewrite H. eexists. eexists. exists []. split; [reflexivity | now rewrite app_nil_r].
  - rewrite H1 in H1'. injection H1' as <-. rewrite H2 in H2'. injection H2' as <-.
    rewrite H3 in H3'. injection H3' as _ <-.
    rewrite H. eexists. eexists. eexists. split; reflexivity.
  - rewrite H1 in H1'. injection H1' as <-. rewrite H2 in H2'. injection H2' as <-.
    rewrite H3 in H3'. injection H3' as _ <-.
    rewrite H. eexists. eexists.
    exists (CallIngresses2GatewaysAndHTTPRoutes (Items l)
            :: map CallPrintObj (renderOrder hr gw)).
    split; [reflexivity |].
    unfold rendered, with_event. cbn [trace]. now rewrite <- app_assoc.
Qed.

(** X24. The fetch is scoped by the filter the namespace resolution left in
    the runner: a file-backed run hands it to the file reader with the
    input file, and a cluster-backed run whose configuration and client
    are available lists through the client restricted to it. *)
Theorem fetch_uses_the_resolved_filter (w : World) (s s1 s2 : State) :
  initializeResourcePrinter w s = Normal None s1 ->
  initializeNamespaceFilter w s1 = Normal None s2 ->
  exists r s',
    PrintGatewaysAndHTTPRoutes w s = Normal r s'
    /\ (inputFile (runner s) <> "" ->
        exists tail,
          trace s' =
          (trace s2
           ++ CallConstructIngressesFromFile (inputFile (runner s))
                (namespaceFilter (runner s2)) :: tail)%list)
    /\ (inputFile (runner s) = "" ->
        forall conf cl,
          GetConfig w = (conf, None) ->
          clientNew w conf = (cl, None) ->
          exists tail,
            trace s' =
            (trace s2
             ++ [CallGetConfig; CallClientNew conf;
                 CallConstructIngressesFromCluster
                   (NewNamespacedClient cl (namespaceFilter (runner s2)))]
             ++ tail)%list).
Proof.
  intros H1 H2.
  assert (Hin : inputFile (runner s2) = inputFile (runner s)).
  { destruct (initializeResourcePrinter_ok _ _ _ H1) as [p ->].
    exact (proj1 (initializeNamespaceFilter_trace _ _ _ _ H2)). }
  destruct (getIngessList_cases w s2 (namespaceFilter (runner s2)) (inputFile (runner s2)))
    as (r3 & s3 & evs & H3 & Hs3 & Hfile & _ & _).
  destruct (run_after_fetch w s s1 s2 s3 r3 H1 H2 H3) as (r & s' & tail & Hrun & Ht).
  exists r, s'. split; [exact Hrun |]. split.
  - intros Hne. exists tail. rewrite Ht, Hs3. cbn [trace].
    rewrite Hin in Hfile. rewrite (Hfile Hne), <- app_assoc. reflexivity.
  - intros He conf cl Hconf Hnew. exists tail.
    rewrite He in Hin. rewrite Hin in H3.
    destruct (getIngessList_cluster_trace w s2 (namespaceFilter (runner s2)) conf cl
                Hconf Hnew) as (r3' & s3' & H3' & Ht3).
    rewrite H3 in H3'. injection H3' as _ <-.
    now rewrite Ht, Ht3, <- app_assoc.
Qed.

End Properties.

(** ** Concrete runs *)

(** allNamespaces with an explicit namespace set as well. *)
Lemma allNamespaces_precedence_witness :
  exists s',
    initializeNamespaceFilter (clusterWorld "default" [ingress1])
      (start (flagsRunner "yaml" "" "namespace1" true)) = Normal None s'
    /\ namespaceFilter (runner s') = ""
    /\ trace s' = [].
Proof.
  apply (allNamespaces_precedence (clusterWorld "default" [ingress1])
           (start (flagsRunner "yaml" "" "namespace1" true))).
  reflexivity.
Defined.

(** A cluster-backed run on a machine without kubeconfig. *)
Lemma cluster_lookup_failure_is_fatal_witness :
  (exists s',
     initializeNamespaceFilter (fileWorld [ingress1]) (start (flagsRunner "yaml" "" "" false))
     = Normal (Some (errorString "no configuration has been provided")) s'
     /\ namespaceFilter (runner s') = "")
  /\ (exists e s',
        PrintGatewaysAndHTTPRoutes (fileWorld [ingress1])
          (start (flagsRunner "yaml" "" "" false)) = Normal (Some e) s'
        /\ stdout s' = ""
        /\ (trace s' = [] \/ trace s' = [CallNamespace])).
Proof.
  apply (cluster_lookup_failure_is_fatal (fileWorld [ingress1])
           (start (flagsRunner "yaml" "" "" false)) "" false
           (errorString "no configuration has been provided"));
    reflexivity.
Defined.

(** A file-backed run on a machine without kubeconfig. *)
Lemma file_lookup_failure_degrades_witness :
  exists s',
    initializeNamespaceFilter (fileWorld [ingress1])
      (start (flagsRunner "yaml" "input-file.yaml" "" false)) = Normal None s'
    /\ namespaceFilter (runner s') = "".
Proof.
  apply (file_lookup_failure_degrades (fileWorld [ingress1])
           (start (flagsRunner "yaml" "input-file.yaml" "" false)) false
           (errorString "no configuration has been provided"));
    [discriminate | reflexivity | reflexivity | reflexivity].
Defined.

(** The empty output format. *)
Lemma empty_format_selects_yaml_witness :
  exists s',
    initializeResourcePrinter (fileWorld [ingress1])
      (start (flagsRunner "" "input-file.yaml" "" false)) = Normal None s'
    /\ resourcePrinter (runner s') = Some (YAMLPrinter 0)
    /\ forall s0, outputFormat (runner s0) = "yaml" ->
         exists s0',
           initializeResourcePrinter (fileWorld [ingress1]) s0 = Normal None s0'
           /\ resourcePrinter (runner s0') = resourcePrinter (runner s').
Proof.
  apply (empty_format_selects_yaml (fileWorld [ingress1])
           (start (flagsRunner "" "input-file.yaml" "" false))).
  reflexivity.
Defined.

(** Scenario 4 of the specification: the output format xml. *)
Lemma unsupported_format_fails_fast_witness :
  exists e0 e,
    initializeResourcePrinter (fileWorld [ingress1])
      (start (flagsRunner "xml" "input-file.yaml" "" false))
    = Normal (Some e0) (start (flagsRunner "xml" "input-file.yaml" "" false))
    /\ Error e0 = "xml is not a supported output format"
    /\ PrintGatewaysAndHTTPRoutes (fileWorld [ingress1])
         (start (flagsRunner "xml" "input-file.yaml" "" false))
       = Normal (Some e) (start (flagsRunner "xml" "input-file.yaml" "" false))
    /\ Error e = "failed to initialize resrouce printer: " ++ Error e0
    /\ Unwrap e = Some e0.
Proof.
  apply (unsupported_format_fails_fast (fileWorld [ingress1])
           (start (flagsRunner "xml" "input-file.yaml" "" false)));
    discriminate.
Defined.

(** C6, as stated, fails on the empty output format: it is neither yaml
    nor json, yet initializeResourcePrinter accepts it, and the run goes on
    to read the file and ends without error. *)
Lemma empty_format_is_not_refused :
  outputFormat (flagsRunner "" "input-file.yaml" "" false) <> "yaml"
  /\ outputFormat (flagsRunner "" "input-file.yaml" "" false) <> "json"
  /\ (exists s',
        initializeResourcePrinter (fileWorld [ingress1])
          (start (flagsRunner "" "input-file.yaml" "" false)) = Normal None s')
  /\ (exists s',
        PrintGatewaysAndHTTPRoutes (fileWorld [ingress1])
          (start (flagsRunner "" "input-file.yaml" "" false)) = Normal None s'
        /\ existsb isFetch (trace s') = true).
Proof.
  split; [discriminate |]. split; [discriminate |].
  split; eexists; [| split]; reflexivity.
Qed.

(** An empty cluster namespace. *)
Lemma empty_acquisition_fails_witness :
  exists e s',
    getIngessList "default" "" (clusterWorld "default" []) (start (flagsRunner "yaml" "" "" false))
    = Normal (None, Some e) s'
    /\ Contains (Error e) "No resources found"
    /\ ("default" = "" -> Error e = "No resources found")
    /\ ("default" <> "" ->
        Error e = "No resources found in " ++ "default" ++ " namespace"
        /\ Contains (Error e) "default").
Proof.
  apply (empty_acquisition_fails (clusterWorld "default" [])
           (start (flagsRunner "yaml" "" "" false)) "default" "" {| Items := [] |}).
  - right. split; [reflexivity |].
    exists "https://cluster.example", "https://cluster.example".
    repeat split; reflexivity.
  - reflexivity.
Defined.

(** Two gateways and two routes through a fresh YAMLPrinter. *)
Lemma outputResult_order_witness :
  exists s',
    outputResult [routeOf ingress1; routeOf ingress2] [gatewayOf ingress1; gatewayOf ingress2]
      (fileWorld [ingress1; ingress2])
      (start (set_resourcePrinter (Some (YAMLPrinter 0))
                (flagsRunner "yaml" "input-file.yaml" "" false)))
    = Normal tt s'
    /\ trace s' =
       [CallPrintObj (GatewayObject (gatewayOf ingress1));
        CallPrintObj (GatewayObject (gatewayOf ingress2));
        CallPrintObj (HTTPRouteObject (routeOf ingress1));
        CallPrintObj (HTTPRouteObject (routeOf ingress2))]
    /\ stdout s' =
       "name: ingress1" ++ LF ++ "---" ++ LF ++ "name: ingress2" ++ LF
       ++ "---" ++ LF ++ "name: ingress1" ++ LF ++ "---" ++ LF ++ "name: ingress2" ++ LF.
Proof.
  exact (outputResult_order (fileWorld [ingress1; ingress2])
           (start (set_resourcePrinter (Some (YAMLPrinter 0))
                     (flagsRunner "yaml" "input-file.yaml" "" false)))
           (YAMLPrinter 0)
           [routeOf ingress1; routeOf ingress2] [gatewayOf ingress1; gatewayOf ingress2]
           eq_refl).
Defined.

(** Scenario 5 of the specification: three records, two conversion
    errors. *)
Lemma conversion_errors_abort_the_run_witness :
  exists e s',
    PrintGatewaysAndHTTPRoutes (fileWorld [ingress1; ingressNoClass; ingressNoClass'])
      (start (flagsRunner "yaml" "input-file.yaml" "" false)) = Normal (Some e) s'
    /\ s' = with_event
              (CallIngresses2GatewaysAndHTTPRoutes [ingress1; ingressNoClass; ingressNoClass'])
              (afterFetch (YAMLPrinter 0) (flagsRunner "yaml" "input-file.yaml" "" false))
    /\ (forall err, In err [noClass ingressNoClass; noClass ingressNoClass'] ->
        Contains (Error e) (Error err))
    /\ Contains (Error e) ("# Encountered " ++ "2" ++ " errors")
    /\ stdout s' = ""
    /\ printed (trace s') = [].
Proof.
  apply (conversion_errors_abort_the_run
           (fileWorld [ingress1; ingressNoClass; ingressNoClass'])
           (start (flagsRunner "yaml" "input-file.yaml" "" false))
           (afterFetch (YAMLPrinter 0) (flagsRunner "yaml" "input-file.yaml" "" false))
           {| Items := [ingress1; ingressNoClass; ingressNoClass'] |}
           [routeOf ingress1] [gatewayOf ingress1]
           [noClass ingressNoClass; noClass ingressNoClass']).
  - eexists. eexists. split; [reflexivity |]. split; reflexivity.
  - reflexivity.
  - discriminate.
Defined.

(** A record without name between two that print. *)
Lemma render_failures_are_not_fatal_witness :
  (exists p s',
     resourcePrinter (runner (afterFetch (YAMLPrinter 0) (flagsRunner "yaml" "input-file.yaml" "" false))) = Some p
     /\ outputResult
          [routeOf ingress1; routeOf ingressNoName; routeOf ingress2]
          [gatewayOf ingress1; gatewayOf ingressNoName; gatewayOf ingress2]
          (fileWorld [ingress1; ingressNoName; ingress2])
          (with_event
             (CallIngresses2GatewaysAndHTTPRoutes
                (Items {| Items := [ingress1; ingressNoName; ingress2] |}))
             (afterFetch (YAMLPrinter 0) (flagsRunner "yaml" "input-file.yaml" "" false)))
        = Normal tt s'
     /\ PrintGatewaysAndHTTPRoutes (fileWorld [ingress1; ingressNoName; ingress2])
          (start (flagsRunner "yaml" "input-file.yaml" "" false)) = Normal None s'
     /\ printed (trace s') =
        ([] ++ map GatewayObject [gatewayOf ingress1; gatewayOf ingressNoName; gatewayOf ingress2]
            ++ map HTTPRouteObject [routeOf ingress1; routeOf ingressNoName; routeOf ingress2])%list
     /\ stdout s' =
        ""
        ++ rendering p
             (map GatewayObject [gatewayOf ingress1; gatewayOf ingressNoName; gatewayOf ingress2]
              ++ map HTTPRouteObject [routeOf ingress1; routeOf ingressNoName; routeOf ingress2])
     /\ forall pre obj post err,
          (map GatewayObject [gatewayOf ingress1; gatewayOf ingressNoName; gatewayOf ingress2]
           ++ map HTTPRouteObject [routeOf ingress1; routeOf ingressNoName; routeOf ingress2])%list
          = (pre ++ obj :: post)%list ->
          snd (PrintObj (printerAfter p pre) obj) = Some err ->
          Contains (stdout s')
            ("# Error printing " ++ objectName obj ++ " HTTPRoute: " ++ Error err ++ LF)
          /\ stdout s' =
             ""
             ++ rendering p pre
             ++ snd (fst (PrintObj (printerAfter p pre) obj))
             ++ ("# Error printing " ++ objectName obj ++ " HTTPRoute: " ++ Error err ++ LF)
             ++ rendering (fst (fst (PrintObj (printerAfter p pre) obj))) post)
  /\ (exists s',
        PrintGatewaysAndHTTPRoutes (fileWorld [ingress1; ingressNoName; ingress2])
          (start (flagsRunner "yaml" "input-file.yaml" "" false)) = Normal None s'
        /\ stdout s' =
           "name: ingress1" ++ LF
           ++ "---" ++ LF ++ "# Error printing  HTTPRoute: record without name" ++ LF
           ++ "---" ++ LF ++ "name: ingress2" ++ LF
           ++ "---" ++ LF ++ "name: ingress1" ++ LF
           ++ "---" ++ LF ++ "# Error printing  HTTPRoute: record without name" ++ LF
           ++ "---" ++ LF ++ "name: ingress2" ++ LF).
Proof.
  split.
  - apply (render_failures_are_not_fatal
             (fileWorld [ingress1; ingressNoName; ingress2])
             (start (flagsRunner "yaml" "input-file.yaml" "" false))
             (afterFetch (YAMLPrinter 0) (flagsRunner "yaml" "input-file.yaml" "" false))
             {| Items := [ingress1; ingressNoName; ingress2] |}
             [routeOf ingress1; routeOf ingressNoName; routeOf ingress2]
             [gatewayOf ingress1; gatewayOf ingressNoName; gatewayOf ingress2]).
    + eexists. eexists. split; [reflexivity |]. split; reflexivity.
    + reflexivity.
  - eexists. split; vm_compute; reflexivity.
Defined.

(** The same file read twice: once from a fresh runner on a machine without
    cluster, once from a runner with stale fields on a machine with one. *)
Lemma file_run_deterministic_witness :
  exists r s1' s2',
    PrintGatewaysAndHTTPRoutes
      (machine ("namespace2", None) (Some [ingress1; ingress2; ingressNoNamespace]) None)
      (start (flagsRunner "json" "input-file.yaml" "" false)) = Normal r s1'
    /\ PrintGatewaysAndHTTPRoutes
         (machine ("namespace2", None) (Some [ingress1; ingress2; ingressNoNamespace])
            (Some [ingress1]))
         (with_event CallGetConfig
            (start (set_namespaceFilter "namespace1"
                      (set_resourcePrinter (Some (YAMLPrinter 7))
                         (flagsRunner "json" "input-file.yaml" "" false))))) = Normal r s2'
    /\ stdout s2' = stdout s1'.
Proof.
  apply (file_run_deterministic
           (machine ("namespace2", None) (Some [ingress1; ingress2; ingressNoNamespace]) None)
           (machine ("namespace2", None) (Some [ingress1; ingress2; ingressNoNamespace])
              (Some [ingress1]))
           (start (flagsRunner "json" "input-file.yaml" "" false))
           (with_event CallGetConfig
              (start (set_namespaceFilter "namespace1"
                        (set_resourcePrinter (Some (YAMLPrinter 7))
                           (flagsRunner "json" "input-file.yaml" "" false))))));
    [discriminate | reflexivity | reflexivity | reflexivity | reflexivity
    | intros _ _; reflexivity | intros namespaceFilter; reflexivity | reflexivity].
Defined.

(** ** Concrete runs of the further properties *)

(** The flag --namespace namespace2 on a machine whose kubeconfig names
    another namespace. *)
Lemma explicit_namespace_is_used_verbatim_witness :
  initializeNamespaceFilter (clusterWorld "default" [ingress2])
    (start (flagsRunner "yaml" "" "namespace2" false))
  = Normal None
      (with_runner (set_namespaceFilter "namespace2" (flagsRunner "yaml" "" "namespace2" false))
         (start (flagsRunner "yaml" "" "namespace2" false))).
Proof.
  apply (explicit_namespace_is_used_verbatim (clusterWorld "default" [ingress2])
           (start (flagsRunner "yaml" "" "namespace2" false)));
    [reflexivity | discriminate].
Defined.

(** A file-backed run on a machine whose kubeconfig names namespace2. *)
Lemma ambient_namespace_is_the_default_witness :
  initializeNamespaceFilter
    (machine ("namespace2", None) (Some [ingress1; ingress2]) None)
    (start (flagsRunner "yaml" "input-file.yaml" "" false))
  = Normal None
      (with_runner
         (set_namespaceFilter "namespace2" (flagsRunner "yaml" "input-file.yaml" "" false))
         (with_event CallNamespace (start (flagsRunner "yaml" "input-file.yaml" "" false)))).
Proof.
  apply (ambient_namespace_is_the_default
           (machine ("namespace2", None) (Some [ingress1; ingress2]) None)
           (start (flagsRunner "yaml" "input-file.yaml" "" false)) "namespace2" false);
    reflexivity.
Defined.

(** Scenario 3 of the specification: the filter namespace2 on a file with
    ingresses of two namespaces. *)
Lemma nonempty_acquisition_is_returned_witness :
  exists s',
    getIngessList "namespace2" "input-file.yaml" (fileWorld [ingress1; ingress2])
      (start (flagsRunner "yaml" "input-file.yaml" "namespace2" false))
    = Normal (Some {| Items := [ingress2] |}, None) s'
    /\ runner s' = flagsRunner "yaml" "input-file.yaml" "namespace2" false
    /\ stdout s' = "".
Proof.
  apply (nonempty_acquisition_is_returned (fileWorld [ingress1; ingress2])
           (start (flagsRunner "yaml" "input-file.yaml" "namespace2" false))
           "namespace2" "input-file.yaml" {| Items := [ingress2] |}).
  - left. split; [discriminate | reflexivity].
  - discriminate.
Defined.

(** A file that does not exist. *)
Lemma unreadable_file_is_reported_witness :
  exists e,
    getIngessList "" "missing.yaml" (fileWorld [ingress1])
      (start (flagsRunner "yaml" "missing.yaml" "" false))
    = Normal (None, Some e)
        (with_event (CallConstructIngressesFromFile "missing.yaml" "")
           (start (flagsRunner "yaml" "missing.yaml" "" false)))
    /\ Error e = "failed to open input file: " ++ "no such file or directory"
    /\ Unwrap e = Some (errorString "no such file or directory").
Proof.
  apply (unreadable_file_is_reported (fileWorld [ingress1])
           (start (flagsRunner "yaml" "missing.yaml" "" false))
           "" "missing.yaml" {| Items := [] |}
           (errorString "no such file or directory"));
    [discriminate | reflexivity].
Defined.

(** A machine without cluster configuration. *)
Lemma missing_config_stops_acquisition_witness :
  exists e,
    getIngessList "default" "" (fileWorld [ingress1])
      (start (flagsRunner "yaml" "" "default" false))
    = Normal (None, Some e)
        (with_event CallGetConfig (start (flagsRunner "yaml" "" "default" false)))
    /\ Error e = "failed to get client config: " ++ "no configuration has been provided"
    /\ Unwrap e = Some (errorString "no configuration has been provided").
Proof.
  apply (missing_config_stops_acquisition (fileWorld [ingress1])
           (start (flagsRunner "yaml" "" "default" false)) "default" ""
           (errorString "no configuration has been provided")).
  reflexivity.
Defined.

(** A cluster that refuses the client. *)
Lemma client_failure_stops_acquisition_witness :
  exists e,
    getIngessList "default" ""
      (faultyCluster (Some (errorString "unauthorized")) None)
      (start (flagsRunner "yaml" "" "" false))
    = Normal (None, Some e)
        (with_event (CallClientNew "https://cluster.example")
           (with_event CallGetConfig (start (flagsRunner "yaml" "" "" false))))
    /\ Error e = "failed to create client: " ++ "unauthorized"
    /\ Unwrap e = Some (errorString "unauthorized").
Proof.
  apply (client_failure_stops_acquisition
           (faultyCluster (Some (errorString "unauthorized")) None)
           (start (flagsRunner "yaml" "" "" false)) "default"
           "https://cluster.example" "https://cluster.example"
           (errorString "unauthorized"));
    reflexivity.
Defined.

(** A cluster that refuses the listing. *)
Lemma cluster_listing_failure_is_reported_witness :
  exists e s',
    getIngessList "default" ""
      (faultyCluster None (Some (errorString "forbidden")))
      (start (flagsRunner "yaml" "" "" false))
    = Normal (None, Some e) s'
    /\ trace s' =
       [CallGetConfig; CallClientNew "https://cluster.example";
        CallConstructIngressesFromCluster "default"]
    /\ Error e = "failed to get ingress resources from kubenetes cluster: " ++ "forbidden"
    /\ Unwrap e = Some (errorString "forbidden").
Proof.
  exact (cluster_listing_failure_is_reported
           (faultyCluster None (Some (errorString "forbidden")))
           (start (flagsRunner "yaml" "" "" false)) "default"
           "https://cluster.example" "https://cluster.example" {| Items := [] |}
           (errorString "forbidden") eq_refl eq_refl eq_refl).
Defined.

(** A cluster-backed run on a machine without kubeconfig. *)
Lemma failed_run_writes_nothing_witness :
  PrintGatewaysAndHTTPRoutes (fileWorld [ingress1]) (start (flagsRunner "yaml" "" "" false))
  = Normal
      (Some (Errorf "failed to initialize namespace filter: %w"
               [AError (errorString "no configuration has been provided")]))
      (with_event CallNamespace (withPrinter (YAMLPrinter 0) (flagsRunner "yaml" "" "" false)))
  /\ stdout
       (with_event CallNamespace (withPrinter (YAMLPrinter 0) (flagsRunner "yaml" "" "" false)))
     = ""
  /\ printed
       (trace (with_event CallNamespace
                 (withPrinter (YAMLPrinter 0) (flagsRunner "yaml" "" "" false))))
     = [].
Proof.
  split; [reflexivity |].
  exact (failed_run_writes_nothing (fileWorld [ingress1])
           (start (flagsRunner "yaml" "" "" false))
           (with_event CallNamespace
              (withPrinter (YAMLPrinter 0) (flagsRunner "yaml" "" "" false)))
           (Errorf "failed to initialize namespace filter: %w"
              [AError (errorString "no configuration has been provided")])
           eq_refl).
Defined.

(** Scenario 1 of the specification, with two ingresses. *)
Lemma successful_run_rendered_everything_witness :
  exists s3 l httpRoutes gateways p,
    reachesConversion (fileWorld [ingress1; ingress2])
      (start (flagsRunner "yaml" "input-file.yaml" "" false)) s3 l
    /\ Items l <> []
    /\ Ingresses2GatewaysAndHTTPRoutes (Items l) = (httpRoutes, gateways, [])
    /\ resourcePrinter (runner s3) = Some p
    /\ rendered (YAMLPrinter 0)
         [GatewayObject (gatewayOf ingress1); GatewayObject (gatewayOf ingress2);
          HTTPRouteObject (routeOf ingress1); HTTPRouteObject (routeOf ingress2)]
         (with_event (CallIngresses2GatewaysAndHTTPRoutes [ingress1; ingress2])
            (afterFetch (YAMLPrinter 0) (flagsRunner "yaml" "input-file.yaml" "" false)))
       = rendered p (map GatewayObject gateways ++ map HTTPRouteObject httpRoutes)%list
           (with_event (CallIngresses2GatewaysAndHTTPRoutes (Items l)) s3).
Proof.
  apply (successful_run_rendered_everything (fileWorld [ingress1; ingress2])
           (start (flagsRunner "yaml" "input-file.yaml" "" false))).
  reflexivity.
Defined.

(** A file-backed run on a machine that has a cluster as well. *)
Lemma file_run_never_touches_the_cluster_witness :
  exists r s' evs,
    PrintGatewaysAndHTTPRoutes
      (machine ("namespace2", None) (Some [ingress1; ingress2]) (Some [ingress1]))
      (start (flagsRunner "json" "input-file.yaml" "" false)) = Normal r s'
    /\ trace s' = ([] ++ evs)%list
    /\ existsb isClusterAccess evs = false
    /\ forall path nf, In (CallConstructIngressesFromFile path nf) evs ->
         path = "input-file.yaml".
Proof.
  apply (file_run_never_touches_the_cluster
           (machine ("namespace2", None) (Some [ingress1; ingress2]) (Some [ingress1]))
           (start (flagsRunner "json" "input-file.yaml" "" false))).
  discriminate.
Defined.

(** A cluster-backed run on a machine that has the manifest file as well. *)
Lemma cluster_run_never_reads_a_file_witness :
  exists r s' evs,
    PrintGatewaysAndHTTPRoutes
      (machine ("namespace2", None) (Some [ingress1; ingress2]) (Some [ingress2]))
      (start (flagsRunner "yaml" "" "" false)) = Normal r s'
    /\ trace s' = ([] ++ evs)%list
    /\ existsb isFileRead evs = false.
Proof.
  apply (cluster_run_never_reads_a_file
           (machine ("namespace2", None) (Some [ingress1; ingress2]) (Some [ingress2]))
           (start (flagsRunner "yaml" "" "" false))).
  reflexivity.
Defined.

(** Scenario 2 of the specification: a file without ingresses. *)
Lemma run_error_names_its_stage_witness :
  (exists e0,
      initializeResourcePrinter (fileWorld []) (start (flagsRunner "yaml" "input-file.yaml" "" false))
      = Normal (Some e0) (afterFetch (YAMLPrinter 0) (flagsRunner "yaml" "input-file.yaml" "" false))
      /\ Error (Errorf "failed to get ingresses from source: %w"
       [AError (Errorf "No resources found" [])])
         = "failed to initialize resrouce printer: " ++ Error e0
      /\ Unwrap (Errorf "failed to get ingresses from source: %w"
       [AError (Errorf "No resources found" [])]) = Some e0)
  \/ (exists s1 e0,
        initializeResourcePrinter (fileWorld []) (start (flagsRunner "yaml" "input-file.yaml" "" false)) = Normal None s1
        /\ initializeNamespaceFilter (fileWorld []) s1 = Normal (Some e0) (afterFetch (YAMLPrinter 0) (flagsRunner "yaml" "input-file.yaml" "" false))
        /\ Error (Errorf "failed to get ingresses from source: %w"
       [AError (Errorf "No resources found" [])])
           = "failed to initialize namespace filter: " ++ Error e0
        /\ Unwrap (Errorf "failed to get ingresses from source: %w"
       [AError (Errorf "No resources found" [])]) = Some e0)
  \/ (exists s1 s2 e0,
        initializeResourcePrinter (fileWorld []) (start (flagsRunner "yaml" "input-file.yaml" "" false)) = Normal None s1
        /\ initializeNamespaceFilter (fileWorld []) s1 = Normal None s2
        /\ getIngessList (namespaceFilter (runner s2)) (inputFile (runner s2)) (fileWorld []) s2
           = Normal (None, Some e0) (afterFetch (YAMLPrinter 0) (flagsRunner "yaml" "input-file.yaml" "" false))
        /\ Error (Errorf "failed to get ingresses from source: %w"
       [AError (Errorf "No resources found" [])])
           = "failed to get ingresses from source: " ++ Error e0
        /\ Unwrap (Errorf "failed to get ingresses from source: %w"
       [AError (Errorf "No resources found" [])]) = Some e0)
  \/ (exists s3 l httpRoutes gateways errList,
        reachesConversion (fileWorld []) (start (flagsRunner "yaml" "input-file.yaml" "" false)) s3 l
        /\ Ingresses2GatewaysAndHTTPRoutes (Items l) = (httpRoutes, gateways, errList)
        /\ errList <> []
        /\ (Errorf "failed to get ingresses from source: %w"
       [AError (Errorf "No resources found" [])]) = aggregate errList).
Proof.
  exact (run_error_names_its_stage (fileWorld [])
           (start (flagsRunner "yaml" "input-file.yaml" "" false))
           (afterFetch (YAMLPrinter 0) (flagsRunner "yaml" "input-file.yaml" "" false))
           (Errorf "failed to get ingresses from source: %w"
       [AError (Errorf "No resources found" [])])
           eq_refl).
Defined.

(** Scenario 5 of the specification: the layout of the message. *)
Lemma aggregated_message_layout_witness :
  exists e s',
    PrintGatewaysAndHTTPRoutes (fileWorld [ingress1; ingressNoClass; ingressNoClass'])
      (start (flagsRunner "yaml" "input-file.yaml" "" false)) = Normal (Some e) s'
    /\ Error e =
       LF ++ LF ++ LF ++ "# Encountered 2 errors"
       ++ " # ingress ingress3 has no class" ++ " # ingress ingress4 has no class".
Proof.
  refine (aggregated_message_layout
            (fileWorld [ingress1; ingressNoClass; ingressNoClass'])
            (start (flagsRunner "yaml" "input-file.yaml" "" false))
            (afterFetch (YAMLPrinter 0) (flagsRunner "yaml" "input-file.yaml" "" false))
            {| Items := [ingress1; ingressNoClass; ingressNoClass'] |}
            [routeOf ingress1] [gatewayOf ingress1]
            [noClass ingressNoClass; noClass ingressNoClass'] _ _ _).
  - eexists. eexists. split; [reflexivity |]. split; reflexivity.
  - reflexivity.
  - discriminate.
Defined.

(** Scenario 5 of the specification: the chain of the error. *)
Lemma aggregated_error_unwraps_to_the_count_line_witness :
  exists e s',
    PrintGatewaysAndHTTPRoutes (fileWorld [ingress1; ingressNoClass; ingressNoClass'])
      (start (flagsRunner "yaml" "input-file.yaml" "" false)) = Normal (Some e) s'
    /\ unwrapN 2 e = Some (errorString (LF ++ "# Encountered 2 errors"))
    /\ unwrapN 3 e = None.
Proof.
  refine (aggregated_error_unwraps_to_the_count_line
            (fileWorld [ingress1; ingressNoClass; ingressNoClass'])
            (start (flagsRunner "yaml" "input-file.yaml" "" false))
            (afterFetch (YAMLPrinter 0) (flagsRunner "yaml" "input-file.yaml" "" false))
            {| Items := [ingress1; ingressNoClass; ingressNoClass'] |}
            [routeOf ingress1] [gatewayOf ingress1]
            [noClass ingressNoClass; noClass ingressNoClass'] _ _ _).
  - eexists. eexists. split; [reflexivity |]. split; reflexivity.
  - reflexivity.
  - discriminate.
Defined.

(** outputResult called on a runner that was never initialised. *)
Lemma outputResult_without_printer_witness :
  outputResult [routeOf ingress1] [] (fileWorld [ingress1])
    (start (flagsRunner "yaml" "input-file.yaml" "" false))
  = Panic (start (flagsRunner "yaml" "input-file.yaml" "" false)).
Proof.
  exact (outputResult_without_printer (fileWorld [ingress1])
           (start (flagsRunner "yaml" "input-file.yaml" "" false))
           [routeOf ingress1] [] eq_refl).
Defined.

(** The flag --namespace namespace1 on a machine without kubeconfig. *)
Lemma scope_flags_bypass_the_kubeconfig_witness :
  exists r s' evs,
    PrintGatewaysAndHTTPRoutes (fileWorld [ingress1; ingress2])
      (start (flagsRunner "yaml" "input-file.yaml" "namespace1" false)) = Normal r s'
    /\ trace s' = ([] ++ evs)%list
    /\ ~ In CallNamespace evs.
Proof.
  apply (scope_flags_bypass_the_kubeconfig (fileWorld [ingress1; ingress2])
           (start (flagsRunner "yaml" "input-file.yaml" "namespace1" false))).
  right. discriminate.
Defined.

(** A cluster-backed run in the namespace of the current context. *)
Lemma fetch_uses_the_resolved_filter_witness :
  exists r s',
    PrintGatewaysAndHTTPRoutes (clusterWorld "namespace2" [ingress1; ingress2])
      (start (flagsRunner "yaml" "" "" false)) = Normal r s'
    /\ ("" <> "" ->
        exists tail,
          trace s' =
          ([CallNamespace] ++ CallConstructIngressesFromFile "" "namespace2" :: tail)%list)
    /\ ("" = "" ->
        forall conf cl,
          GetConfig (clusterWorld "namespace2" [ingress1; ingress2]) = (conf, None) ->
          clientNew (clusterWorld "namespace2" [ingress1; ingress2]) conf = (cl, None) ->
          exists tail,
            trace s' =
            ([CallNamespace]
             ++ [CallGetConfig; CallClientNew conf;
                 CallConstructIngressesFromCluster (NewNamespacedClient cl "namespace2")]
             ++ tail)%list).
Proof.
  exact (fetch_uses_the_resolved_filter (clusterWorld "namespace2" [ingress1; ingress2])
           (start (flagsRunner "yaml" "" "" false))
           (withPrinter (YAMLPrinter 0) (flagsRunner "yaml" "" "" false))
           (with_runner
              (set_namespaceFilter "namespace2"
                 (set_resourcePrinter (Some (YAMLPrinter 0)) (flagsRunner "yaml" "" "" false)))
              (with_event CallNamespace
                 (withPrinter (YAMLPrinter 0) (flagsRunner "yaml" "" "" false))))
           eq_refl eq_refl).
Defined.
